(** * Memedeck gateway: a shallow embedding of [proxy.rs] and [lib.rs]

    The reverse proxy of the memedeck Hyperware app, modelled after
    [src/memedeck/src/proxy.rs] (URL rewriting, content-type dispatch,
    [run_proxy]) and [src/memedeck/src/lib.rs] (auto-login and the refresh
    page).  Byte strings are Rocq [string]s (one [ascii] per byte); the
    regular-expression replacements of the [regex] crate are modelled by a
    leftmost-first scanner, one matcher per pattern. *)

From Stdlib Require Import String Ascii List Bool Arith Lia DecimalString.
Import ListNotations.
Open Scope list_scope.
Open Scope string_scope.
Set Warnings "-register-all,-abstract-large-number".

(** ** Characters that cannot be written as literals here *)

(** The double quote, byte 34. *)
Abbreviation dq_char := (Ascii false true false false false true false false).
(** The backslash, byte 92. *)
Abbreviation bs_char := (Ascii false false true true true false true false).

Definition dq : string := String dq_char EmptyString.
(** A backslash followed by a double quote: an escaped quote, as in a JSON
    string inside a script. *)
Definition bs_dq : string := String bs_char (String dq_char EmptyString).

(** ** String helpers *)

(** [prefix_of pre s]: [s] starts with [pre] ([str::starts_with]). *)
Fixpoint prefix_of (pre s : string) : bool :=
  match pre, s with
  | EmptyString, _ => true
  | String a pre', String b s' => Ascii.eqb a b && prefix_of pre' s'
  | String _ _, EmptyString => false
  end.

(** [contains sub s]: [sub] occurs in [s] ([str::contains]). *)
Fixpoint contains (sub s : string) : bool :=
  prefix_of sub s ||
  match s with
  | EmptyString => false
  | String _ s' => contains sub s'
  end.

(** [take_until c s]: the text before the first [c] in [s] and the text after
    it, or [None] when [s] has no [c]. *)
Fixpoint take_until (c : ascii) (s : string) : option (string * string) :=
  match s with
  | EmptyString => None
  | String a s' =>
      if Ascii.eqb a c then Some (EmptyString, s')
      else match take_until c s' with
           | Some (before, after) => Some (String a before, after)
           | None => None
           end
  end.

(** [split_last s]: [s] without its last byte, and that byte. *)
Fixpoint split_last (s : string) : option (string * ascii) :=
  match s with
  | EmptyString => None
  | String a EmptyString => Some (EmptyString, a)
  | String a s' =>
      match split_last s' with
      | Some (init, l) => Some (String a init, l)
      | None => None
      end
  end.

(** [no_char c s]: the byte [c] does not occur in [s]. *)
Fixpoint no_char (c : ascii) (s : string) : bool :=
  match s with
  | EmptyString => true
  | String a s' => negb (Ascii.eqb a c) && no_char c s'
  end.

(** ** [Regex::replace_all]

    [find_at s] decides whether a match of the pattern starts at the head of
    [s]; it returns the text the closure reads (the whole match or a capture
    group) and the input after the match.  The scan emits unmatched bytes
    unchanged and resumes after each match: the regex crate's leftmost-first,
    non-overlapping replacement, for patterns whose match at a given start is
    unique (all patterns below). *)
Section ReplaceAll.
Variable find_at : string -> option (string * string).
Variable replacer : string -> string.

Fixpoint replace_all_fuel (fuel : nat) (s : string) : string :=
  match fuel with
  | O => s
  | S f =>
      match find_at s with
      | Some (cap, rest) => replacer cap ++ replace_all_fuel f rest
      | None =>
          match s with
          | EmptyString => EmptyString
          | String c t => String c (replace_all_fuel f t)
          end
      end
  end.

Definition replace_all (s : string) : string := replace_all_fuel (String.length s) s.

Hypothesis find_at_shrinks :
  forall s cap rest, find_at s = Some (cap, rest) -> String.length rest < String.length s.
Hypothesis find_at_empty : find_at EmptyString = None.

Lemma replace_all_fuel_irrel :
  forall n m s, String.length s <= n -> String.length s <= m ->
  replace_all_fuel n s = replace_all_fuel m s.
Proof.
  induction n as [|n IH]; intros m s Hn Hm.
  - destruct s; simpl in Hn; [|lia].
    destruct m; simpl; [reflexivity|]. rewrite find_at_empty. reflexivity.
  - destruct m as [|m].
    + destruct s; simpl in Hm; [|lia]. simpl. rewrite find_at_empty. reflexivity.
    + simpl. destruct (find_at s) as [[cap rest]|] eqn:Ef.
      * pose proof (find_at_shrinks _ _ _ Ef). f_equal. apply IH; lia.
      * destruct s as [|c t]; [reflexivity|]. simpl in Hn, Hm.
        f_equal. apply IH; lia.
Qed.

Lemma replace_all_fuel_enough :
  forall n s, String.length s <= n -> replace_all_fuel n s = replace_all s.
Proof. intros n s H. apply replace_all_fuel_irrel; lia. Qed.

Lemma replace_all_match :
  forall s cap rest, find_at s = Some (cap, rest) ->
  replace_all s = replacer cap ++ replace_all rest.
Proof.
  intros s cap rest Hf. pose proof (find_at_shrinks _ _ _ Hf) as Hl.
  unfold replace_all at 1. destruct (String.length s) as [|n] eqn:El; [lia|].
  simpl. rewrite Hf. f_equal. apply replace_all_fuel_enough. lia.
Qed.

Lemma replace_all_nomatch :
  forall c t, find_at (String c t) = None ->
  replace_all (String c t) = String c (replace_all t).
Proof.
  intros c t Hf. unfold replace_all. simpl. rewrite Hf. reflexivity.
Qed.

Lemma replace_all_nil : replace_all EmptyString = EmptyString.
Proof. reflexivity. Qed.
End ReplaceAll.

(** [strip_prefix pre s]: [s] without its prefix [pre], when it has it. *)
Fixpoint strip_prefix (pre s : string) : option string :=
  match pre, s with
  | EmptyString, _ => Some s
  | String a pre', String b s' => if Ascii.eqb a b then strip_prefix pre' s' else None
  | String _ _, EmptyString => None
  end.

(** ** The rewriters of [proxy.rs] *)

(** [replace_urls_js]: the pattern is the literal [_next/]; the closure
    writes [memedeck:memedeck:memedeck-tester.os/{capture}], a fixed
    package path (the parameter [output] is not read). *)
Definition js_find_at (s : string) : option (string * string) :=
  match strip_prefix "_next/" s with
  | Some rest => Some ("_next/", rest)
  | None => None
  end.

Definition replace_urls_js (input output : string) : string :=
  replace_all js_find_at
    (fun capture => "memedeck:memedeck:memedeck-tester.os/" ++ capture) input.

(** [replace_urls_css]: the pattern [url\((\/[^)]+)\)]: [url(], then the
    capture group, a slash followed by at least one byte other than a
    closing parenthesis, then the first closing parenthesis.  The closure
    writes [url(/{output}{capture})]. *)
Definition css_find_at (s : string) : option (string * string) :=
  match strip_prefix "url(/" s with
  | Some t =>
      match take_until ")"%char t with
      | Some (body, rest) =>
          match body with
          | EmptyString => None
          | String _ _ => Some ("/" ++ body, rest)
          end
      | None => None
      end
  | None => None
  end.

Definition replace_urls_css (input output : string) : string :=
  replace_all css_find_at (fun capture => "url(/" ++ output ++ capture ++ ")") input.

(** [replace_files]: the pattern is an escaped quote, a slash, bytes other
    than a double quote containing a dot and one of the extensions below,
    then an escaped quote; since no double quote may occur in between, the
    closing quote is the first one after the opening and must be preceded by
    a backslash.  The closure removes every escaped quote of the whole match
    ([capture.replace]) and writes the result between an escaped quote and
    a slash plus [output] on the left and an escaped quote on the right. *)
Definition file_exts : list string :=
  ["css"; "js"; "ttf"; "woff2"; "ico"; "png"; "svg"; "jpg"; "jpeg"; "webp"; "html"].

Definition has_dot_ext (s : string) : bool :=
  existsb (fun e => contains ("." ++ e) s) file_exts.

Definition files_find_at (s : string) : option (string * string) :=
  match strip_prefix (bs_dq ++ "/") s with
  | Some t =>
      match take_until dq_char t with
      | Some (b, rest) =>
          match split_last b with
          | Some (inner, l) =>
              if Ascii.eqb l bs_char && has_dot_ext inner
              then Some (bs_dq ++ "/" ++ inner ++ bs_dq, rest)
              else None
          | None => None
          end
      | None => None
      end
  | None => None
  end.

(** [str::replace] of the two bytes backslash, quote by the empty string. *)
Fixpoint remove_escaped_quotes (s : string) : string :=
  match s with
  | String bs_char (String dq_char t) => remove_escaped_quotes t
  | String c t => String c (remove_escaped_quotes t)
  | EmptyString => EmptyString
  end.

Definition replace_files (input output : string) : string :=
  replace_all files_find_at
    (fun capture =>
       let quoteless := remove_escaped_quotes capture in
       bs_dq ++ "/" ++ output ++ quoteless ++ bs_dq) input.

(** ** Results

    [anyhow::Result] with a third case for a panic ([unwrap] on [None]). *)
Inductive Outcome (A : Type) : Type :=
| Ok (a : A)
| Err (e : string)
| Panic (msg : string).
Arguments Ok {A} a.
Arguments Err {A} e.
Arguments Panic {A} msg.

(** ** URLs ([url::Url]), for the special schemes http and https *)
Record Url : Type := mkUrl {
  scheme : string;
  host : string;
  path : string;
  query : option string;
  fragment : option string
}.

(** [Url::set_path] replaces the path and keeps scheme, host, query and
    fragment; a path of a special URL always starts with a slash.  (The
    percent-encoding and dot-segment normalisation of the crate are left
    out.) *)
Definition set_path (u : Url) (p : string) : Url :=
  mkUrl (scheme u) (host u) (if prefix_of "/" p then p else "/" ++ p) (query u) (fragment u).

Fixpoint split_on (c : ascii) (s : string) : list string :=
  match s with
  | EmptyString => [EmptyString]
  | String a s' =>
      if Ascii.eqb a c then EmptyString :: split_on c s'
      else match split_on c s' with
           | [] => [String a EmptyString]
           | x :: xs => String a x :: xs
           end
  end.

(** [Url::path_segments]: the path after its leading slash, split at each
    slash; [None] for a path without a leading slash (cannot-be-a-base). *)
Definition path_segments (u : Url) : option (list string) :=
  match strip_prefix "/" (path u) with
  | Some rest => Some (split_on "/"%char rest)
  | None => None
  end.

Definition split_first_path_segment (url : Url) : string * Url :=
  let first_segment :=
    match path_segments url with
    | Some (s :: _) => s
    | _ => EmptyString
    end in
  let segments :=
    match path_segments url with
    | Some l => tl l
    | None => []
    end in
  let new_path :=
    match segments with
    | [] => "/"
    | _ => "/" ++ String.concat "/" segments
    end in
  (first_segment, set_path url new_path).

(** ** Headers *)

Definition ascii_lower (c : ascii) : ascii :=
  let n := nat_of_ascii c in
  if Nat.leb 65 n && Nat.leb n 90 then ascii_of_nat (n + 32) else c.

Fixpoint lowercase (s : string) : string :=
  match s with
  | EmptyString => EmptyString
  | String c s' => String (ascii_lower c) (lowercase s')
  end.

Fixpoint str_forallb (f : ascii -> bool) (s : string) : bool :=
  match s with
  | EmptyString => true
  | String c s' => f c && str_forallb f s'
  end.

(** A [HashMap<String, String>]: [insert] replaces the value of the key. *)
Definition hashmap_insert (k v : string) (m : list (string * string)) : list (string * string) :=
  (k, v) :: filter (fun kv => negb (String.eqb (fst kv) k)) m.

(** A [http::HeaderMap]: names compare case-insensitively; [insert] drops
    every earlier value of the name, [get] returns the first value. *)
Definition header_insert (k v : string) (h : list (string * string)) : list (string * string) :=
  (lowercase k, v) :: filter (fun kv => negb (String.eqb (lowercase (fst kv)) (lowercase k))) h.

Fixpoint header_get (k : string) (h : list (string * string)) : option string :=
  match h with
  | [] => None
  | (k', v) :: h' => if String.eqb (lowercase k') (lowercase k) then Some v else header_get k h'
  end.

(** [HeaderValue::from_str] accepts tab and every byte from 32 on but 127. *)
Definition header_value_valid (s : string) : bool :=
  str_forallb (fun c => let n := nat_of_ascii c in
                        (Nat.leb 32 n && negb (Nat.eqb n 127)) || Nat.eqb n 9) s.

(** [HeaderValue::to_str] accepts tab and the visible ASCII bytes 32..126. *)
Definition header_value_visible (s : string) : bool :=
  str_forallb (fun c => let n := nat_of_ascii c in
                        (Nat.leb 32 n && Nat.ltb n 127) || Nat.eqb n 9) s.

(** The regex [;.*] of [run_proxy]: a semicolon and every following byte up
    to the next line feed (the dot does not match a line feed). *)
Fixpoint skip_to_newline (s : string) : string :=
  match s with
  | EmptyString => EmptyString
  | String c t => if Ascii.eqb c "010"%char then s else skip_to_newline t
  end.

Definition mime_find_at (s : string) : option (string * string) :=
  match s with
  | String ";" t => Some (s, skip_to_newline t)
  | _ => None
  end.

Definition strip_mime_params (content_type : string) : string :=
  replace_all mime_find_at (fun _ => EmptyString) content_type.

(** ** HTML documents, as the [lol_html] rewriter sees them

    [Raw] is content emitted verbatim: what a handler inserted with
    [prepend] or [replace]; handlers do not see it. *)
Inductive Node : Type :=
| Element (tag : string) (attrs : list (string * string)) (children : list Node)
| Text (t : string)
| Raw (h : string).

Fixpoint get_attribute (attrs : list (string * string)) (name : string) : option string :=
  match attrs with
  | [] => None
  | (n, v) :: attrs' => if String.eqb n name then Some v else get_attribute attrs' name
  end.

Fixpoint set_attribute (attrs : list (string * string)) (name value : string)
  : list (string * string) :=
  match attrs with
  | [] => [(name, value)]
  | (n, v) :: attrs' =>
      if String.eqb n name then (n, value) :: attrs'
      else (n, v) :: set_attribute attrs' name value
  end.

Definition url_attributes : list string := ["href"; "src"].

(** [str::trim_start_matches('/')]. *)
Fixpoint trim_start_slashes (s : string) : string :=
  match s with
  | String "/" t => trim_start_slashes t
  | _ => s
  end.

(** [str::trim_end_matches('/')]. *)
Fixpoint trim_end_slashes (s : string) : string :=
  match s with
  | EmptyString => EmptyString
  | String c t =>
      match trim_end_slashes t with
      | EmptyString => if Ascii.eqb c "/" then EmptyString else String c EmptyString
      | t' => String c t'
      end
  end.

(** [str::trim_matches('/')]. *)
Definition trim_matches_slash (s : string) : string :=
  trim_end_slashes (trim_start_slashes s).

Definition nl : string := String "010"%char EmptyString.

Definition mother_script (prefix : string) : string :=
  nl ++ "        <script>" ++ nl ++
  "            const HYPERWARE_APP_PATH = '" ++ prefix ++ "';" ++ nl ++
  "        </script>" ++ nl ++ "    ".

(** Text inserted with [ContentType::Text] is HTML-escaped. *)
Fixpoint escape_text (s : string) : string :=
  match s with
  | EmptyString => EmptyString
  | String "&" t => "&amp;" ++ escape_text t
  | String "<" t => "&lt;" ++ escape_text t
  | String ">" t => "&gt;" ++ escape_text t
  | String c t => String c (escape_text t)
  end.

(** The handler of the selector [[href],[src]]. *)
Definition rewrite_url_attributes (prefix : string) (attrs : list (string * string))
  : list (string * string) :=
  fold_left
    (fun acc attr =>
       match get_attribute acc attr with
       | Some value =>
           if prefix_of "/" value
           then set_attribute acc attr ("/" ++ prefix ++ "/" ++ trim_start_slashes value)
           else acc
       | None => acc
       end)
    url_attributes attrs.

Definition matches_url_selector (attrs : list (string * string)) : bool :=
  existsb (fun attr => match get_attribute attrs attr with Some _ => true | None => false end)
    url_attributes.

(** The three handlers of [modify_html], on a node whose parent has tag
    [parent]: [head] gets [mother_script] prepended; elements with [href] or
    [src] get their root-relative values rewritten; text inside [script] is
    replaced by [replace_files] of it. *)
Fixpoint modify_node (prefix parent : string) (n : Node) {struct n} : Node :=
  match n with
  | Element tag attrs children =>
      let attrs' :=
        if matches_url_selector attrs then rewrite_url_attributes prefix attrs else attrs in
      let pre := if String.eqb tag "head" then [Raw (mother_script prefix)] else [] in
      Element tag attrs' (app pre (map (modify_node prefix tag) children))
  | Text t =>
      if String.eqb parent "script" then Raw (escape_text (replace_files t prefix)) else Text t
  | Raw h => Raw h
  end.

Definition modify_html (doc : list Node) (prefix : string) : list Node :=
  let prefix := trim_matches_slash prefix in
  map (modify_node prefix EmptyString) doc.

(** ** Requests, responses and the effects of the proxy *)

(** An [IncomingHttpRequest]: [method()] and [url()] may fail. *)
Record IncomingHttpRequest : Type := mkIncoming {
  req_method : option string;
  req_url : option Url
}.

Record OutgoingRequest : Type := mkOutgoing {
  or_method : string;
  or_url : Url;
  or_headers : list (string * string);
  or_timeout : nat;
  or_body : string
}.

(** The upstream's response: status, header map and body bytes. *)
Record UpstreamResponse : Type := mkUpstream {
  up_status : nat;
  up_headers : list (string * string);
  up_body : string
}.

(** What [send_response] sends to the client. *)
Record HttpResponse : Type := mkResponse {
  resp_status : nat;
  resp_headers : list (string * string);
  resp_body : string
}.

Inductive Effect : Type :=
| UpstreamRequest (r : OutgoingRequest)
| SendResponse (r : HttpResponse).

(** ** [run_proxy]

    The libraries the proxy calls are parameters: the URL parser, the HTML
    tokenizer and serializer of [lol_html], [String::from_utf8_lossy] and the
    HTTP client ([None] for a transport error). *)
Section Proxy.
Variable Url_parse : string -> option Url.
Variable html_parse : string -> option (list Node).
Variable html_render : list Node -> string.
Variable from_utf8_lossy : string -> string.
Variable send_request_await_response : OutgoingRequest -> option UpstreamResponse.

Definition replace_domain (original_url : Url) (new_domain : string) : Outcome Url :=
  match Url_parse new_domain with
  | Some new_url => Ok (set_path new_url (path original_url))
  | None => Err "url parse error"
  end.

(** [modify_html] on bytes: tokenize, run the handlers, serialize. *)
Definition modify_html_bytes (html_bytes prefix : string) : Outcome string :=
  match html_parse html_bytes with
  | Some doc => Ok (html_render (modify_html doc prefix))
  | None => Err "html rewriter error"
  end.

(** The [match mime.as_str()] of [run_proxy]. *)
Definition rewrite_body (mime body first_path_segment : string) : Outcome string :=
  if String.eqb mime "text/html" then modify_html_bytes body first_path_segment
  else if String.eqb mime "text/css" then
    Ok (replace_urls_css (from_utf8_lossy body) first_path_segment)
  else if String.eqb mime "application/javascript" then
    Ok (replace_urls_js (from_utf8_lossy body) first_path_segment)
  else if String.eqb mime "application/octet-stream" then
    Ok (replace_urls_js (from_utf8_lossy body) first_path_segment)
  else Ok body.

(** The request blob is [blob] ([get_blob()]); the result is the outcome
    and the effects in the order they happen. *)
Definition run_proxy (blob : option string) (request : IncomingHttpRequest)
  (web2_url cookie : string) : Outcome unit * list Effect :=
  match blob with
  | None => (Panic "get_blob", [])
  | Some body =>
  match req_url request with
  | None => (Err "request url", [])
  | Some request_url =>
  match replace_domain request_url (web2_url ++ "/memedeck:memedeck:memedeck-tester.os") with
  | Err e => (Err e, [])
  | Panic m => (Panic m, [])
  | Ok url =>
  let '(first_path_segment, url) := split_first_path_segment url in
  let headers := hashmap_insert "Cookie" cookie [] in
  match req_method request with
  | None => (Err "request method", [])
  | Some method =>
  let out := mkOutgoing method url headers 6000 body in
  match send_request_await_response out with
  | None => (Err "upstream", [UpstreamRequest out])
  | Some response =>
  if negb (header_value_valid cookie) then (Err "invalid header value", [UpstreamRequest out])
  else
  let resheaders := header_insert "set-cookie" cookie (up_headers response) in
  let content_type :=
    match header_get "content-type" resheaders with
    | Some ct => if header_value_visible ct then Ok ct else Err "to_str"
    | None => Ok "text/html"
    end in
  match content_type with
  | Err e => (Err e, [UpstreamRequest out])
  | Panic m => (Panic m, [UpstreamRequest out])
  | Ok content_type =>
  let mime := strip_mime_params content_type in
  let headers := hashmap_insert "Content-type" content_type [] in
  match rewrite_body mime (up_body response) first_path_segment with
  | Err e => (Err e, [UpstreamRequest out])
  | Panic m => (Panic m, [UpstreamRequest out])
  | Ok body =>
      (Ok tt, [UpstreamRequest out;
               SendResponse (mkResponse (up_status response) headers body)])
  end end end end end end end.
End Proxy.

(** ** [lib.rs]: configuration *)

Definition WEB2_URL : string := "https://hyperware.memedeck.xyz".
Definition WEB2_LOGIN_ENDPOINT : string := "https://api.memedeck.xyz/v2/auth/hyperware/login".
Definition PACKAGE_PATH : string := "/app:memedeck:meme-deck.os".
Definition WEB2_LOGIN_NONCE : string := "951f64b8-5905-47f8-b12c-3ca8f53119f2".

Record LoginMessage : Type := mkLoginMessage {
  site : string;
  time : nat;
  nonce : option string
}.

(** The requests of the [sign:sign:sys] process. *)
Inductive SignRequest : Type :=
| NetKeySign
| NetKeyVerify (node : string) (signature : string)
| NetKeyMakeMessage.

(** What [send_and_await_response(10)] gives back: the outer [anyhow] error,
    an inner [SendError], or a response; [get_blob()] afterwards yields the
    blob of that response, if it has one.  The response body is not read by
    [auto_login]. *)
Inductive SendResult : Type :=
| SendBuildError
| SendError
| Replied (blob : option string).

(** [serde_json::Value]. *)
Inductive json_value : Type :=
| JNull
| JBool (b : bool)
| JNumber (repr : string)
| JString (s : string)
| JArray (items : list json_value)
| JObject (members : list (string * json_value)).

(** [Value::get] with a string key: a member of an object, [None] otherwise. *)
Definition json_get (v : json_value) (key : string) : option json_value :=
  match v with
  | JObject members =>
      match find (fun kv => String.eqb (fst kv) key) members with
      | Some (_, x) => Some x
      | None => None
      end
  | _ => None
  end.

(** The JSON body [{node, message, signature}] posted by [attempt_login]. *)
Record LoginPayload : Type := mkLoginPayload {
  lp_node : string;
  lp_message : string;
  lp_signature : string
}.

Definition nat_to_string (n : nat) : string := NilEmpty.string_of_uint (Nat.to_uint n).

(** The page of [send_refresh_response], line by line. *)
Definition refresh_html (delay home_path : string) : string :=
  String.concat nl [
    "<!DOCTYPE html>";
    "        <html>";
    "        <head>";
    "            <meta http-equiv=" ++ dq ++ "refresh" ++ dq ++ " content=" ++ dq ++ delay ++ "; url=" ++ home_path ++ dq ++ ">";
    "            <title>Redirecting...</title>";
    "            <style>";
    "                body {";
    "                    background-color: #000000;";
    "                    color: #e0e0e0;";
    "                    font-family: Arial, sans-serif;";
    "                    display: flex;";
    "                    flex-direction: column;";
    "                    align-items: center;";
    "                    justify-content: center;";
    "                    height: 100vh;";
    "                    margin: 0;";
    "                    padding: 0;";
    "                }";
    "                ";
    "                h1 {";
    "                    color: #ffffff;";
    "                    margin-bottom: 20px;";
    "                }";
    "                ";
    "                p {";
    "                    margin-bottom: 30px;";
    "                }";
    "                ";
    "                .spinner {";
    "                    width: 50px;";
    "                    height: 50px;";
    "                    border: 5px solid rgba(255, 255, 255, 0.3);";
    "                    border-radius: 50%;";
    "                    border-top-color: #2086FF;";
    "                    animation: spin 1s ease-in-out infinite;";
    "                    margin-bottom: 20px;";
    "                }";
    "                ";
    "                @keyframes spin {";
    "                    to {";
    "                        transform: rotate(360deg);";
    "                    }";
    "                }";
    "                ";
    "                .container {";
    "                    text-align: center;";
    "                }";
    "            </style>";
    "        </head>";
    "        <body>";
    "            <div class=" ++ dq ++ "container" ++ dq ++ ">";
    "                <div class=" ++ dq ++ "spinner" ++ dq ++ "></div>";
    "            </div>";
    "        </body>";
    "        </html>"].

(** [send_refresh_response]: status [FOUND], the two headers, the page. *)
Definition send_refresh_response (delay_seconds : nat) (cookie : string) : HttpResponse :=
  let home_path := PACKAGE_PATH ++ "/home" in
  let html := refresh_html (nat_to_string delay_seconds) home_path in
  let headers := hashmap_insert "Set-Cookie" cookie
                   (hashmap_insert "Content-Type" "text/html" []) in
  mkResponse 302 headers html.

(** ** Auto-login and [handle_page_request]

    Parameters: the signer process, the HTTP client posting to
    [WEB2_LOGIN_ENDPOINT] ([None] for a transport error), the JSON parser
    ([serde_json::from_slice]) and serializer of [LoginMessage]
    ([serde_json::to_vec]), [String::from_utf8] and base64 encoding, and the
    four-argument [proxy::run_proxy] that [lib.rs] calls with [PACKAGE_PATH]
    (the [proxy.rs] of this repository defines a three-argument one). *)
Section Login.
Variable signer : SignRequest -> string -> SendResult.
Variable login_post : LoginPayload -> option UpstreamResponse.
Variable json_parse : string -> option json_value.
Variable login_message_to_vec : LoginMessage -> string.
Variable from_utf8 : string -> option string.
Variable base64_encode : string -> string.
Variable run_proxy_pkg :
  IncomingHttpRequest -> string -> string -> string -> Outcome unit * list Effect.

(** The JSON object of [attempt_login]: the message as UTF-8 when it is
    valid UTF-8, base64 otherwise, and the signature in base64. *)
Definition login_payload (node message signature : string) : LoginPayload :=
  let message_str :=
    match from_utf8 message with
    | Some s => s
    | None => base64_encode message
    end in
  let signature_base64 := base64_encode signature in
  mkLoginPayload node message_str signature_base64.

Definition attempt_login (node message signature : string) : Outcome (option string) :=
  match login_post (login_payload node message signature) with
  | None => Err "Failed to send request"
  | Some res =>
      match json_parse (up_body res) with
      | None => Err "json parse error"
      | Some resjson =>
          match json_get resjson "cookie" with
          | None => Err "Signature verification failed"
          | Some (JString v) => Ok (Some ("hyperware_token=" ++ v ++ "; path=/;"))
          | Some _ => Err "cookie is not a string"
          end
      end
  end.

(** The [LoginMessage] of [auto_login], serialized. *)
Definition login_challenge_bytes (now : nat) : string :=
  let body := mkLoginMessage WEB2_URL now (Some WEB2_LOGIN_NONCE) in
  login_message_to_vec body.

Definition auto_login (our_node : string) (now : nat) : Outcome (option string) :=
  let body_bytes := login_challenge_bytes now in
  match signer NetKeySign body_bytes with
  | SendBuildError => Err "sign request"
  | SendError => Err "Failed to send request"
  | Replied signature_blob =>
  match signature_blob with
  | None => Panic "get_blob"
  | Some signature =>
  match signer (NetKeyVerify our_node signature) body_bytes with
  | SendBuildError => Err "verify request"
  | SendError => Err "verify send error"
  | Replied _ =>
  match signer NetKeyMakeMessage body_bytes with
  | SendBuildError => Err "make message request"
  | SendError => Err "make message send error"
  | Replied message_blob =>
  match message_blob with
  | None => Panic "get_blob"
  | Some message => attempt_login our_node message signature
  end end end end end.

(** The outcome, the session cookie afterwards, and the effects. *)
Definition handle_page_request (our_node : string) (now : nat)
  (http_request : IncomingHttpRequest) (cookie : option string)
  : Outcome unit * option string * list Effect :=
  match cookie with
  | Some c =>
      let '(o, effects) := run_proxy_pkg http_request WEB2_URL c PACKAGE_PATH in
      (o, cookie, effects)
  | None =>
      match auto_login our_node now with
      | Err e => (Err e, cookie, [])
      | Panic m => (Panic m, cookie, [])
      | Ok new_cookie =>
          match new_cookie with
          | Some c => (Ok tt, new_cookie, [SendResponse (send_refresh_response 1 c)])
          | None => (Panic "unwrap", new_cookie, [])
          end
      end
  end.
End Login.

(** ** Concrete collaborators, for evaluating the model on inputs *)

(** A parser for [https://host/path?query#fragment] URLs. *)
Definition demo_url_parse (s : string) : option Url :=
  match strip_prefix "https://" s with
  | None => None
  | Some r =>
      let '(before_hash, frag) :=
        match take_until "#"%char r with
        | Some (b, f) => (b, Some f)
        | None => (r, None)
        end in
      let '(before_q, q) :=
        match take_until "?"%char before_hash with
        | Some (b, q) => (b, Some q)
        | None => (before_hash, None)
        end in
      match take_until "/"%char before_q with
      | Some (h, p) => Some (mkUrl "https" h ("/" ++ p) q frag)
      | None => Some (mkUrl "https" before_q "/" q frag)
      end
  end.

(** A document that is a single text node, rendered as its text. *)
Definition demo_html_parse (s : string) : option (list Node) := Some [Text s].
Fixpoint demo_render_node (n : Node) : string :=
  match n with
  | Element tag _ children =>
      "<" ++ tag ++ ">" ++ String.concat EmptyString (map demo_render_node children)
  | Text t => t
  | Raw h => h
  end.
Definition demo_html_render (doc : list Node) : string :=
  String.concat EmptyString (map demo_render_node doc).

Definition demo_request : IncomingHttpRequest :=
  mkIncoming (Some "GET")
    (Some (mkUrl "https" "node.os" "/memedeck:memedeck:memedeck-tester.os/main.css"
             (Some "v=1") None)).

(** An upstream answering every request with a stylesheet and its own cookie. *)
Definition demo_upstream (_ : OutgoingRequest) : option UpstreamResponse :=
  Some (mkUpstream 200 [("content-type", "text/css; charset=utf-8"); ("set-cookie", "foo=bar")]
          "a{background:url(/img/x.png)}").

Definition demo_run_proxy (upstream : OutgoingRequest -> option UpstreamResponse)
  (request : IncomingHttpRequest) : Outcome unit * list Effect :=
  run_proxy demo_url_parse demo_html_parse demo_html_render (fun s => s) upstream
    (Some EmptyString) request WEB2_URL "session=abc123".

(** A signer that answers every request with the blob [sig] or [msg]. *)
Definition demo_signer (r : SignRequest) (_ : string) : SendResult :=
  match r with
  | NetKeySign => Replied (Some "sig")
  | NetKeyVerify _ _ => Replied None
  | NetKeyMakeMessage => Replied (Some "msg")
  end.

(** A signer the process cannot reach. *)
Definition demo_signer_down (_ : SignRequest) (_ : string) : SendResult := SendError.

(** Login endpoints answering [{cookie: abc123}] or [{error: bad signature}]. *)
Definition demo_login_ok (_ : LoginPayload) : option UpstreamResponse :=
  Some (mkUpstream 200 [] "ok").
Definition demo_login_bad (_ : LoginPayload) : option UpstreamResponse :=
  Some (mkUpstream 200 [] "bad").
Definition demo_json_parse (s : string) : option json_value :=
  if String.eqb s "ok" then Some (JObject [("cookie", JString "abc123")])
  else if String.eqb s "bad" then Some (JObject [("error", JString "bad signature")])
  else None.

Definition demo_handle_page_request
  (signer : SignRequest -> string -> SendResult)
  (login_post : LoginPayload -> option UpstreamResponse)
  (cookie : option string) : Outcome unit * option string * list Effect :=
  handle_page_request signer login_post demo_json_parse (fun _ => "{}") (fun s => Some s)
    (fun s => s) (fun _ _ _ _ => (Ok tt, [])) "alice.os" 1700 demo_request cookie.

(** A reply of [sign:sign:sys] as the signer sends it: the outer error, the
    [SendError], or a message with its [sign::Response] body (a signature,
    the verdict of a verification, or an error the signer reports) and its
    blob.  [auto_login] drops the body: [request_result.is_err()] and
    [let _ = ...??] only look at the two errors, and [get_blob()] reads the
    blob; so the signer [auto_login] sees is [signer_seen replies]. *)
Inductive SignerReply : Type :=
| ReplyBuildError
| ReplySendError
| ReplyMessage (body : string) (blob : option string).

Definition reply_seen (r : SignerReply) : SendResult :=
  match r with
  | ReplyBuildError => SendBuildError
  | ReplySendError => SendError
  | ReplyMessage _ blob => Replied blob
  end.

Definition signer_seen (replies : SignRequest -> string -> SignerReply)
  : SignRequest -> string -> SendResult :=
  fun r b => reply_seen (replies r b).

(** A signer that rejects the signature it is asked to verify. *)
Definition demo_signer_rejecting (r : SignRequest) (_ : string) : SignerReply :=
  match r with
  | NetKeySign => ReplyMessage "NetKeySign" (Some "sig")
  | NetKeyVerify _ _ => ReplyMessage "NetKeyVerify(false)" None
  | NetKeyMakeMessage => ReplyMessage "NetKeyMakeMessage" (Some "msg")
  end.

(** A signer that reports an error, without a blob, for the signing request. *)
Definition demo_signer_sign_error (r : SignRequest) (_ : string) : SignerReply :=
  match r with
  | NetKeySign => ReplyMessage "Err(no networking key)" None
  | NetKeyVerify _ _ => ReplyMessage "NetKeyVerify(true)" None
  | NetKeyMakeMessage => ReplyMessage "NetKeyMakeMessage" (Some "msg")
  end.

(** ** Definitions following the spec's words, to compare with the code *)

(** The rewriters of the content-type dispatcher. *)
Inductive Rewriter : Type :=
| HtmlRewriter
| CssRewriter
| JsBundleRewriter
| Passthrough.

(** A media type without its parameters: the text before the first
    semicolon. *)
Fixpoint before_semicolon (s : string) : string :=
  match s with
  | EmptyString => EmptyString
  | String ";" _ => EmptyString
  | String c t => String c (before_semicolon t)
  end.

(** The declared media type; a missing content-type counts as [text/html]. *)
Definition declared_media_type (content_type : option string) : string :=
  match content_type with
  | Some ct => before_semicolon ct
  | None => "text/html"
  end.

Definition select_rewriter (media_type : string) : Rewriter :=
  if String.eqb media_type "text/html" then HtmlRewriter
  else if String.eqb media_type "text/css" then CssRewriter
  else if orb (String.eqb media_type "application/javascript")
              (String.eqb media_type "application/octet-stream") then JsBundleRewriter
  else Passthrough.

Definition apply_rewriter (html_parse : string -> option (list Node))
  (html_render : list Node -> string) (from_utf8_lossy : string -> string)
  (rw : Rewriter) (body prefix : string) : Outcome string :=
  match rw with
  | HtmlRewriter => modify_html_bytes html_parse html_render body prefix
  | CssRewriter => Ok (replace_urls_css (from_utf8_lossy body) prefix)
  | JsBundleRewriter => Ok (replace_urls_js (from_utf8_lossy body) prefix)
  | Passthrough => Ok body
  end.

(** The same URL with another query string. *)
Definition url_with_query (u : Url) (q : option string) : Url :=
  mkUrl (scheme u) (host u) (path u) q (fragment u).

(** The failures of the auto-login that the spec lists: a signer request
    that cannot be sent or fails in transport (signing, verification,
    canonical message), the login POST failing in transport, a login
    response that is not JSON, and one without the [cookie] field. *)
Definition transport_failure (r : SendResult) : Prop :=
  r = SendBuildError \/ r = SendError.

Section LoginFailures.
Variable signer : SignRequest -> string -> SendResult.
Variable login_post : LoginPayload -> option UpstreamResponse.
Variable json_parse : string -> option json_value.
Variable login_message_to_vec : LoginMessage -> string.
Variable from_utf8 : string -> option string.
Variable base64_encode : string -> string.
Variable our_node : string.
Variable now : nat.

Let challenge := login_challenge_bytes login_message_to_vec now.
Let payload := login_payload from_utf8 base64_encode our_node.

Inductive LoginFailsAt : Prop :=
| sign_fails :
    transport_failure (signer NetKeySign challenge) -> LoginFailsAt
| verify_fails : forall signature,
    signer NetKeySign challenge = Replied (Some signature) ->
    transport_failure (signer (NetKeyVerify our_node signature) challenge) -> LoginFailsAt
| make_message_fails : forall signature verified,
    signer NetKeySign challenge = Replied (Some signature) ->
    signer (NetKeyVerify our_node signature) challenge = Replied verified ->
    transport_failure (signer NetKeyMakeMessage challenge) -> LoginFailsAt
| login_post_fails : forall signature verified message,
    signer NetKeySign challenge = Replied (Some signature) ->
    signer (NetKeyVerify our_node signature) challenge = Replied verified ->
    signer NetKeyMakeMessage challenge = Replied (Some message) ->
    login_post (payload message signature) = None -> LoginFailsAt
| login_response_not_json : forall signature verified message res,
    signer NetKeySign challenge = Replied (Some signature) ->
    signer (NetKeyVerify our_node signature) challenge = Replied verified ->
    signer NetKeyMakeMessage challenge = Replied (Some message) ->
    login_post (payload message signature) = Some res ->
    json_parse (up_body res) = None -> LoginFailsAt
| login_response_without_cookie : forall signature verified message res v,
    signer NetKeySign challenge = Replied (Some signature) ->
    signer (NetKeyVerify our_node signature) challenge = Replied verified ->
    signer NetKeyMakeMessage challenge = Replied (Some message) ->
    login_post (payload message signature) = Some res ->
    json_parse (up_body res) = Some v ->
    json_get v "cookie" = None -> LoginFailsAt.
End LoginFailures.

(** The elements of a document in document order, with their attributes. *)
Fixpoint elements (n : Node) : list (string * list (string * string)) :=
  match n with
  | Element tag attrs children => (tag, attrs) :: flat_map elements children
  | Text _ | Raw _ => []
  end.

Definition document_elements (doc : list Node) : list (string * list (string * string)) :=
  flat_map elements doc.

(** ** [lib.rs]: the message loop

    The requests the HTTP server binding delivers: an HTTP request or one
    of the websocket messages, which [handle_request] does not handle. *)
Inductive HttpServerRequest : Type :=
| Http (request : IncomingHttpRequest)
| WebSocketOpen (path : string) (channel_id : nat)
| WebSocketPush (channel_id : nat)
| WebSocketClose (channel_id : nat).

(** A message of [await_message()]: a request with the node and process of
    its source and its body, or a response. *)
Inductive Message : Type :=
| Request (source_node source_process body : string)
| Response.

(** [await_message()]: a message, or a [SendError]. *)
Inductive AwaitResult : Type :=
| Received (m : Message)
| AwaitError.

(** Parameters as for [handle_page_request], and the server's
    [parse_request] ([None] makes its [unwrap] panic). *)
Section MainLoop.
Variable signer : SignRequest -> string -> SendResult.
Variable login_post : LoginPayload -> option UpstreamResponse.
Variable json_parse : string -> option json_value.
Variable login_message_to_vec : LoginMessage -> string.
Variable from_utf8 : string -> option string.
Variable base64_encode : string -> string.
Variable run_proxy_pkg :
  IncomingHttpRequest -> string -> string -> string -> Outcome unit * list Effect.
Variable parse_request : string -> option HttpServerRequest.

Definition handle_request (our_node : string) (now : nat) (source_process body : string)
  (cookie : option string) : Outcome unit * option string * list Effect :=
  if String.eqb source_process "http-server:distro:sys" then
    match parse_request body with
    | None => (Panic "unwrap", cookie, [])
    | Some (Http request) =>
        handle_page_request signer login_post json_parse login_message_to_vec from_utf8
          base64_encode run_proxy_pkg our_node now request cookie
    | Some _ => (Ok tt, cookie, [])
    end
  else (Ok tt, cookie, []).

(** [main_loop] over the messages [await_message()] returns, each with the
    time [get_now()] reads while it is handled: the session cookie
    afterwards, the effects, and the message of the panic that ended the
    process, if one did.  The result of [handle_request] is dropped. *)
Fixpoint main_loop (our_node : string) (messages : list (nat * AwaitResult))
  (cookie : option string) : option string * list Effect * option string :=
  match messages with
  | [] => (cookie, [], None)
  | (now, m) :: rest =>
      match m with
      | AwaitError => main_loop our_node rest cookie
      | Received (Request source_node source_process body) =>
          if negb (String.eqb source_node our_node) then main_loop our_node rest cookie
          else
            let '(o, cookie', effects) := handle_request our_node now source_process body cookie in
            match o with
            | Panic msg => (cookie', effects, Some msg)
            | _ =>
                let '(cookie'', effects', stop) := main_loop our_node rest cookie' in
                (cookie'', app effects effects', stop)
            end
      | Received Response => main_loop our_node rest cookie
      end
  end.
End MainLoop.

(** The messages [main_loop] acts on: requests from the process
    [http-server:distro:sys] of our node whose body is not a websocket
    message. *)
Definition handled_message (parse_request : string -> option HttpServerRequest)
  (our_node : string) (m : nat * AwaitResult) : bool :=
  match snd m with
  | Received (Request source_node source_process body) =>
      String.eqb source_node our_node && String.eqb source_process "http-server:distro:sys" &&
      match parse_request body with
      | Some (Http _) | None => true
      | Some _ => false
      end
  | _ => false
  end.

(** The server's parser on two bodies: [ws] is a websocket message, every
    other body the request [demo_request]. *)
Definition demo_parse_request (body : string) : option HttpServerRequest :=
  if String.eqb body "ws" then Some (WebSocketOpen "/" 1) else Some (Http demo_request).

(** A signer whose verification reply carries a blob. *)
Definition demo_signer_verify_blob (r : SignRequest) (b : string) : SendResult :=
  match r with
  | NetKeyVerify _ _ => Replied (Some "false")
  | _ => demo_signer r b
  end.


Definition demo_main_loop
  (signer : SignRequest -> string -> SendResult) (messages : list (nat * AwaitResult))
  (cookie : option string) : option string * list Effect * option string :=
  main_loop signer demo_login_ok demo_json_parse (fun _ => "{}") (fun s => Some s)
    (fun s => s) (fun _ _ c _ => (Ok tt, [SendResponse (mkResponse 200 [("Cookie", c)] "")]))
    demo_parse_request "alice.os" messages cookie.

(** * Properties *)

(** ** Scanning helpers *)

Lemma strip_prefix_length :
  forall pre s t, strip_prefix pre s = Some t ->
  String.length s = String.length pre + String.length t.
Proof.
  induction pre as [|a pre IH]; intros s t H; simpl in H.
  - injection H as <-. reflexivity.
  - destruct s as [|b s]; [discriminate|].
    destruct (Ascii.eqb a b); [|discriminate]. simpl. rewrite (IH s t H). reflexivity.
Qed.

Lemma take_until_length :
  forall c s before after, take_until c s = Some (before, after) ->
  String.length s = String.length before + S (String.length after).
Proof.
  intros c. induction s as [|a s IH]; intros before after H; simpl in H; [discriminate|].
  destruct (Ascii.eqb a c).
  - injection H as <- <-. reflexivity.
  - destruct (take_until c s) as [[b0 a0]|] eqn:E; [|discriminate].
    injection H as <- <-. simpl. rewrite (IH b0 a0 eq_refl). reflexivity.
Qed.


Lemma css_find_at_shrinks :
  forall s cap rest, css_find_at s = Some (cap, rest) -> String.length rest < String.length s.
Proof.
  unfold css_find_at. intros s cap rest H.
  destruct (strip_prefix "url(/" s) as [t|] eqn:E; [|discriminate].
  destruct (take_until ")"%char t) as [[body r]|] eqn:E2; [|discriminate].
  destruct body; [discriminate|]. injection H as _ <-.
  apply strip_prefix_length in E. apply take_until_length in E2. simpl in *. lia.
Qed.

Lemma files_find_at_shrinks :
  forall s cap rest, files_find_at s = Some (cap, rest) -> String.length rest < String.length s.
Proof.
  unfold files_find_at. intros s cap rest H.
  destruct (strip_prefix (bs_dq ++ "/") s) as [t|] eqn:E; [|discriminate].
  destruct (take_until dq_char t) as [[b r]|] eqn:E2; [|discriminate].
  destruct (split_last b) as [[inner l]|]; [|discriminate].
  destruct (Ascii.eqb l bs_char && has_dot_ext inner); [|discriminate].
  injection H as _ <-.
  apply strip_prefix_length in E. apply take_until_length in E2. simpl in *. lia.
Qed.

Example replace_urls_css_test :
  replace_urls_css "a{background:url(/x/y.png)} b{c:url(/)}" "p"
  = "a{background:url(/p/x/y.png)} b{c:url(/)}".
Proof. reflexivity. Qed.

Example replace_urls_js_test :
  replace_urls_js "x=_next/static;y" "p" = "x=memedeck:memedeck:memedeck-tester.os/_next/static;y".
Proof. reflexivity. Qed.

Example replace_files_test :
  replace_files ("{" ++ bs_dq ++ "/a/b.js" ++ bs_dq ++ "}") "p"
  = "{" ++ bs_dq ++ "/p/a/b.js" ++ bs_dq ++ "}".
Proof. reflexivity. Qed.


(** ** The proxy *)

(** Split a hypothesis [In e effects] over a concrete list of effects and
    discard the cases of another constructor. *)
Ltac in_effects H :=
  simpl in H;
  repeat match type of H with _ \/ _ => destruct H as [H|H] end;
  try discriminate; try contradiction.

(** Every response [run_proxy] sends comes from an upstream response: same
    status, the single header [Content-type] (the upstream value or
    [text/html]), and the body rewritten by the [match] on the media type. *)
Lemma run_proxy_sent_inv :
  forall Url_parse html_parse html_render from_utf8_lossy upstream blob request
         web2_url cookie r,
  In (SendResponse r)
     (snd (run_proxy Url_parse html_parse html_render from_utf8_lossy upstream
             blob request web2_url cookie)) ->
  exists body u base method resp ct,
    blob = Some body /\ req_url request = Some u /\
    Url_parse (web2_url ++ "/memedeck:memedeck:memedeck-tester.os") = Some base /\
    req_method request = Some method /\
    upstream (mkOutgoing method (snd (split_first_path_segment (set_path base (path u))))
                [("Cookie", cookie)] 6000 body) = Some resp /\
    header_value_valid cookie = true /\
    match header_get "content-type" (header_insert "set-cookie" cookie (up_headers resp)) with
    | Some ct' => ct' = ct /\ header_value_visible ct = true
    | None => ct = "text/html"
    end /\
    rewrite_body html_parse html_render from_utf8_lossy (strip_mime_params ct) (up_body resp)
      (fst (split_first_path_segment (set_path base (path u)))) = Ok (resp_body r) /\
    r = mkResponse (up_status resp) [("Content-type", ct)] (resp_body r).
Proof.
  intros until r. intros H. unfold run_proxy, replace_domain in H.
  destruct blob as [body|]; [|simpl in H; contradiction].
  destruct (req_url request) as [u|]; [|simpl in H; contradiction].
  destruct (Url_parse (web2_url ++ "/memedeck:memedeck:memedeck-tester.os")) as [base|] eqn:Eb;
    [|simpl in H; contradiction].
  destruct (split_first_path_segment (set_path base (path u))) as [fps url] eqn:Es.
  destruct (req_method request) as [method|]; [|simpl in H; contradiction].
  destruct (upstream (mkOutgoing method url (hashmap_insert "Cookie" cookie []) 6000 body))
    as [resp|] eqn:Eu; [|in_effects H].
  destruct (header_value_valid cookie) eqn:Ev;
    [|in_effects H].
  simpl negb in H. cbv iota in H.
  destruct (header_get "content-type" (header_insert "set-cookie" cookie (up_headers resp)))
    as [ct|] eqn:Ect.
  - destruct (header_value_visible ct) eqn:Evis; [|in_effects H].
    destruct (rewrite_body html_parse html_render from_utf8_lossy (strip_mime_params ct)
                (up_body resp) fps) as [b|e|m] eqn:Er;
      in_effects H.
    injection H as <-.
    exists body, u, base, method, resp, ct. rewrite Es, Ect. simpl.
    repeat split; auto.
  - destruct (rewrite_body html_parse html_render from_utf8_lossy (strip_mime_params "text/html")
                (up_body resp) fps) as [b|e|m] eqn:Er;
      in_effects H.
    injection H as <-.
    exists body, u, base, method, resp, "text/html". rewrite Es, Ect. simpl.
    repeat split; auto.
Qed.

Lemma ascii_lower_idem : forall c, ascii_lower (ascii_lower c) = ascii_lower c.
Proof. intros [[] [] [] [] [] [] [] []]; reflexivity. Qed.

Lemma lowercase_idem : forall s, lowercase (lowercase s) = lowercase s.
Proof. induction s as [|c s IH]; simpl; [reflexivity|]. rewrite ascii_lower_idem, IH. reflexivity. Qed.

Lemma header_get_insert_other :
  forall k k' v h, String.eqb (lowercase k) (lowercase k') = false ->
  header_get k (header_insert k' v h) = header_get k h.
Proof.
  intros k k' v h Hk. unfold header_insert. simpl.
  rewrite lowercase_idem, String.eqb_sym, Hk.
  induction h as [|[k0 v0] h IH]; [reflexivity|]. simpl.
  destruct (String.eqb (lowercase k0) (lowercase k')) eqn:E0; simpl.
  - apply String.eqb_eq in E0.
    destruct (String.eqb (lowercase k0) (lowercase k)) eqn:E1; [|exact IH].
    apply String.eqb_eq in E1. rewrite E0 in E1. rewrite E1, String.eqb_refl in Hk. discriminate.
  - destruct (String.eqb (lowercase k0) (lowercase k)); [reflexivity|exact IH].
Qed.

Lemma skip_to_newline_length :
  forall t, String.length (skip_to_newline t) <= String.length t.
Proof.
  induction t as [|c t IH]; simpl; [lia|].
  destruct (Ascii.eqb c "010"%char); simpl; lia.
Qed.

Lemma mime_find_at_cons :
  forall c t, mime_find_at (String c t) =
  if Ascii.eqb c ";"%char then Some (String c t, skip_to_newline t) else None.
Proof. intros [[] [] [] [] [] [] [] []] t; reflexivity. Qed.

Lemma before_semicolon_cons :
  forall c t, before_semicolon (String c t) =
  if Ascii.eqb c ";"%char then EmptyString else String c (before_semicolon t).
Proof. intros [[] [] [] [] [] [] [] []] t; reflexivity. Qed.

Lemma mime_find_at_shrinks :
  forall s cap rest, mime_find_at s = Some (cap, rest) -> String.length rest < String.length s.
Proof.
  intros [|c t] cap rest H; [discriminate|]. rewrite mime_find_at_cons in H.
  destruct (Ascii.eqb c ";"%char); [|discriminate]. injection H as _ <-.
  pose proof (skip_to_newline_length t). simpl. lia.
Qed.

Lemma visible_skip_to_newline :
  forall t, header_value_visible t = true -> skip_to_newline t = EmptyString.
Proof.
  unfold header_value_visible.
  induction t as [|c t IH]; simpl; intros H; [reflexivity|].
  apply andb_prop in H as [Hc Ht].
  destruct (Ascii.eqb c "010"%char) eqn:E.
  - apply Ascii.eqb_eq in E. subst c. discriminate.
  - apply IH, Ht.
Qed.

(** With no line feed in the header value, the regex [;.*] removes exactly
    the parameters: the text from the first semicolon on. *)
Lemma strip_mime_params_visible :
  forall ct, header_value_visible ct = true -> strip_mime_params ct = before_semicolon ct.
Proof.
  unfold strip_mime_params.
  induction ct as [|c t IH]; intros H; [reflexivity|].
  pose proof H as Hv. unfold header_value_visible in H. simpl in H.
  apply andb_prop in H as [_ Ht].
  rewrite before_semicolon_cons.
  destruct (Ascii.eqb c ";"%char) eqn:E.
  - rewrite (replace_all_match mime_find_at _ mime_find_at_shrinks eq_refl (String c t)
               (String c t) (skip_to_newline t)).
    + rewrite visible_skip_to_newline by exact Ht. reflexivity.
    + rewrite mime_find_at_cons, E. reflexivity.
  - rewrite replace_all_nomatch by (rewrite mime_find_at_cons, E; reflexivity).
    rewrite IH by exact Ht. reflexivity.
Qed.

Lemma rewrite_body_select :
  forall html_parse html_render from_utf8_lossy mime body prefix,
  rewrite_body html_parse html_render from_utf8_lossy mime body prefix =
  apply_rewriter html_parse html_render from_utf8_lossy (select_rewriter mime) body prefix.
Proof.
  intros. unfold rewrite_body, select_rewriter.
  destruct (String.eqb mime "text/html"); [reflexivity|].
  destruct (String.eqb mime "text/css"); [reflexivity|].
  destruct (String.eqb mime "application/javascript"); [reflexivity|].
  destruct (String.eqb mime "application/octet-stream"); reflexivity.
Qed.

Lemma split_first_path_segment_query :
  forall u, query (snd (split_first_path_segment u)) = query u.
Proof. intros u. reflexivity. Qed.

(** ** Claims about the proxy *)

(** C1 (the response sent to the client carries the session cookie as its
    Set-Cookie header): [run_proxy] writes the cookie into the upstream
    response's header map but sends a fresh map holding only
    [Content-type], so no response it sends has a Set-Cookie header at all. *)
Theorem run_proxy_response_drops_set_cookie :
  forall Url_parse html_parse html_render from_utf8_lossy upstream blob request
         web2_url cookie r,
  In (SendResponse r)
     (snd (run_proxy Url_parse html_parse html_render from_utf8_lossy upstream
             blob request web2_url cookie)) ->
  header_get "set-cookie" (resp_headers r) = None /\
  exists ct, resp_headers r = [("Content-type", ct)].
Proof.
  intros until r. intros H.
  destruct (run_proxy_sent_inv _ _ _ _ _ _ _ _ _ _ H)
    as (body & u & base & method & resp & ct & _ & _ & _ & _ & _ & _ & _ & _ & Hr).
  rewrite Hr. simpl. split; [reflexivity | exists ct; reflexivity].
Qed.

Lemma run_proxy_response_drops_set_cookie_witness :
  In (SendResponse (mkResponse 200 [("Content-type", "text/css; charset=utf-8")]
                      "a{background:url(/memedeck:memedeck:memedeck-tester.os/img/x.png)}"))
     (snd (demo_run_proxy demo_upstream demo_request)) /\
  header_get "set-cookie" (up_headers (mkUpstream 200 [("content-type", "text/css; charset=utf-8");
                                                         ("set-cookie", "foo=bar")] EmptyString))
    = Some "foo=bar" /\
  header_get "set-cookie" [("Content-type", "text/css; charset=utf-8")] = None.
Proof.
  split; [vm_compute; right; left; reflexivity|]. split; [reflexivity|].
  exact (proj1 (run_proxy_response_drops_set_cookie demo_url_parse demo_html_parse
                  demo_html_render (fun s => s) demo_upstream (Some EmptyString) demo_request
                  WEB2_URL "session=abc123" _ ltac:(vm_compute; right; left; reflexivity))).
Defined.

(** C4 (content-type dispatch): a response that [run_proxy] sends answers
    the request it forwarded upstream; it keeps the upstream status, and its
    body is the upstream body put through the rewriter selected by the
    declared media type without its [;] parameters ([text/html] when the
    upstream sends no content-type): HTML, CSS, the JS bundle rewriter for
    [application/javascript] and [application/octet-stream], passthrough
    otherwise; the prefix is the first segment of the request path. *)
Theorem run_proxy_dispatches_on_media_type :
  forall Url_parse html_parse html_render from_utf8_lossy upstream blob request
         web2_url cookie r,
  In (SendResponse r)
     (snd (run_proxy Url_parse html_parse html_render from_utf8_lossy upstream
             blob request web2_url cookie)) ->
  exists out resp u base,
    In (UpstreamRequest out)
       (snd (run_proxy Url_parse html_parse html_render from_utf8_lossy upstream
               blob request web2_url cookie)) /\
    upstream out = Some resp /\
    req_url request = Some u /\
    Url_parse (web2_url ++ "/memedeck:memedeck:memedeck-tester.os") = Some base /\
    resp_status r = up_status resp /\
    apply_rewriter html_parse html_render from_utf8_lossy
      (select_rewriter (declared_media_type (header_get "content-type" (up_headers resp))))
      (up_body resp) (fst (split_first_path_segment (set_path base (path u))))
    = Ok (resp_body r).
Proof.
  intros until r. intros H.
  destruct (run_proxy_sent_inv _ _ _ _ _ _ _ _ _ _ H)
    as (body & u & base & method & resp & ct & Eb & Eu & Ebase & Em & Eup & Ev & Ect & Erw & Hr).
  exists (mkOutgoing method (snd (split_first_path_segment (set_path base (path u))))
            [("Cookie", cookie)] 6000 body), resp, u, base.
  rewrite header_get_insert_other in Ect by reflexivity.
  split; [|split; [exact Eup|split; [exact Eu|split; [exact Ebase|split]]]].
  - unfold run_proxy, replace_domain. rewrite Eb, Eu, Ebase.
    destruct (split_first_path_segment (set_path base (path u))) as [fps url] eqn:Es.
    cbn [snd] in Eup. rewrite Em.
    change (hashmap_insert "Cookie" cookie []) with [("Cookie", cookie)]. rewrite Eup, Ev.
    simpl negb; cbv iota;
      repeat (match goal with |- context [match ?x with _ => _ end] => destruct x end);
      simpl; left; reflexivity.
  - rewrite Hr. reflexivity.
  - rewrite <- rewrite_body_select, <- Erw. f_equal.
    unfold declared_media_type.
    destruct (header_get "content-type" (up_headers resp)) as [ct'|].
    + destruct Ect as [<- Evis]. symmetry. apply strip_mime_params_visible, Evis.
    + subst ct. reflexivity.
Qed.

Lemma run_proxy_dispatches_on_media_type_witness :
  In (SendResponse (mkResponse 200 [("Content-type", "text/css; charset=utf-8")]
                      "a{background:url(/memedeck:memedeck:memedeck-tester.os/img/x.png)}"))
     (snd (demo_run_proxy demo_upstream demo_request)) /\
  select_rewriter (declared_media_type (Some "text/css; charset=utf-8")) = CssRewriter /\
  exists out resp u base,
    In (UpstreamRequest out) (snd (demo_run_proxy demo_upstream demo_request)) /\
    demo_upstream out = Some resp /\
    req_url demo_request = Some u /\
    demo_url_parse (WEB2_URL ++ "/memedeck:memedeck:memedeck-tester.os") = Some base /\
    200 = up_status resp /\
    apply_rewriter demo_html_parse demo_html_render (fun s => s)
      (select_rewriter (declared_media_type (header_get "content-type" (up_headers resp))))
      (up_body resp) (fst (split_first_path_segment (set_path base (path u))))
    = Ok "a{background:url(/memedeck:memedeck:memedeck-tester.os/img/x.png)}".
Proof.
  split; [vm_compute; right; left; reflexivity|]. split; [reflexivity|].
  exact (run_proxy_dispatches_on_media_type demo_url_parse demo_html_parse
           demo_html_render (fun s => s) demo_upstream (Some EmptyString) demo_request
           WEB2_URL "session=abc123" _ ltac:(vm_compute; right; left; reflexivity)).
Defined.

(** C9 (the inbound query string is not forwarded): every request
    [run_proxy] sends upstream has the URL of the configured base with the
    path of the inbound request (its first segment split off); its query is
    the base's, and changing the inbound query changes nothing that
    [run_proxy] does. *)
Theorem run_proxy_drops_inbound_query :
  forall Url_parse html_parse html_render from_utf8_lossy upstream blob web2_url cookie,
  (forall request out,
     In (UpstreamRequest out)
        (snd (run_proxy Url_parse html_parse html_render from_utf8_lossy upstream
                blob request web2_url cookie)) ->
     exists u base,
       req_url request = Some u /\
       Url_parse (web2_url ++ "/memedeck:memedeck:memedeck-tester.os") = Some base /\
       or_url out = snd (split_first_path_segment (set_path base (path u))) /\
       query (or_url out) = query base) /\
  (forall method u q1 q2,
     run_proxy Url_parse html_parse html_render from_utf8_lossy upstream blob
       (mkIncoming method (Some (url_with_query u q1))) web2_url cookie =
     run_proxy Url_parse html_parse html_render from_utf8_lossy upstream blob
       (mkIncoming method (Some (url_with_query u q2))) web2_url cookie).
Proof.
  intros. split.
  - intros request out H. unfold run_proxy, replace_domain in H.
    destruct blob as [body|]; [|in_effects H].
    destruct (req_url request) as [u|]; [|in_effects H].
    destruct (Url_parse (web2_url ++ "/memedeck:memedeck:memedeck-tester.os")) as [base|] eqn:Eb;
      [|in_effects H].
    destruct (split_first_path_segment (set_path base (path u))) as [fps url] eqn:Es.
    destruct (req_method request) as [method|]; [|in_effects H].
    exists u, base.
    assert (Hout : or_url out = url /\ query url = query base).
    { split.
      - destruct (upstream _); [|in_effects H; injection H as <-; reflexivity].
        destruct (negb (header_value_valid cookie)); [in_effects H; injection H as <-; reflexivity|].
        destruct (match header_get _ _ with Some ct => _ | None => _ end) as [ct|e|m];
          [|in_effects H; injection H as <-; reflexivity|in_effects H; injection H as <-; reflexivity].
        destruct (rewrite_body _ _ _ _ _ _) as [b|e|m]; in_effects H; injection H as <-; reflexivity.
      - pose proof (split_first_path_segment_query (set_path base (path u))) as Hq.
        rewrite Es in Hq. exact Hq. }
    destruct Hout as [Ho Hq]. rewrite Ho, Es. simpl. auto.
  - intros. reflexivity.
Qed.

Lemma run_proxy_drops_inbound_query_witness :
  In (UpstreamRequest (mkOutgoing "GET" (mkUrl "https" "hyperware.memedeck.xyz" "/main.css" None None)
                         [("Cookie", "session=abc123")] 6000 EmptyString))
     (snd (demo_run_proxy demo_upstream demo_request)) /\
  exists u base,
    req_url demo_request = Some u /\
    demo_url_parse (WEB2_URL ++ "/memedeck:memedeck:memedeck-tester.os") = Some base /\
    mkUrl "https" "hyperware.memedeck.xyz" "/main.css" None None
      = snd (split_first_path_segment (set_path base (path u))) /\
    None = query base.
Proof.
  split; [vm_compute; left; reflexivity|].
  exact (proj1 (run_proxy_drops_inbound_query demo_url_parse demo_html_parse demo_html_render
                  (fun s => s) demo_upstream (Some EmptyString) WEB2_URL "session=abc123")
           demo_request _ ltac:(vm_compute; left; reflexivity)).
Defined.

(** ** Claims about the auto-login *)

(** C3, counterexample: [auto_login] never reads the bodies of the signer's
    replies.  A signer that rejects the signature in its verification reply
    does not stop the login, which succeeds and stores the cookie; a signer
    that reports an error, without a blob, for the signing request makes
    [get_blob().unwrap()] panic instead of returning an error. *)
Lemma auto_login_ignores_signer_errors :
  demo_handle_page_request (signer_seen demo_signer_rejecting) demo_login_ok None
    = (Ok tt, Some "hyperware_token=abc123; path=/;",
       [SendResponse (send_refresh_response 1 "hyperware_token=abc123; path=/;")]) /\
  demo_handle_page_request (signer_seen demo_signer_sign_error) demo_login_ok None
    = (Panic "get_blob", None, []).
Proof. split; vm_compute; reflexivity. Qed.

(** C3 (a failed login leaves the session unchanged), amended: a signer
    request that cannot be built or fails in transport, a login POST that
    fails in transport, a login response that is not JSON and one without
    the [cookie] field make [auto_login] return an error, and
    [handle_page_request] then returns that error with the session still
    absent and nothing sent.  The signer's replies are not checked: once
    the signing and the make-message requests gave blobs, the reply to the
    verification is ignored and the outcome is that of [attempt_login]; a
    signing or make-message reply without a blob panics at [get_blob],
    the session still absent.  In every run from an absent session, a cookie
    is stored only when the request succeeds, and it is the one [auto_login]
    returned. *)
Theorem auto_login_failure_keeps_session :
  forall signer login_post json_parse login_message_to_vec from_utf8 base64_encode
         run_proxy_pkg our_node now http_request,
  let challenge := login_challenge_bytes login_message_to_vec now in
  (LoginFailsAt signer login_post json_parse login_message_to_vec from_utf8 base64_encode
     our_node now ->
   exists e,
     auto_login signer login_post json_parse login_message_to_vec from_utf8 base64_encode
       our_node now = Err e /\
     handle_page_request signer login_post json_parse login_message_to_vec from_utf8
       base64_encode run_proxy_pkg our_node now http_request None = (Err e, None, [])) /\
  (forall o cookie effects,
     handle_page_request signer login_post json_parse login_message_to_vec from_utf8
       base64_encode run_proxy_pkg our_node now http_request None = (o, cookie, effects) ->
     (forall e, o = Err e -> cookie = None) /\
     (forall c, cookie = Some c ->
        o = Ok tt /\
        auto_login signer login_post json_parse login_message_to_vec from_utf8 base64_encode
          our_node now = Ok (Some c))) /\
  (forall signature verified message,
     signer NetKeySign challenge = Replied (Some signature) ->
     signer (NetKeyVerify our_node signature) challenge = Replied verified ->
     signer NetKeyMakeMessage challenge = Replied (Some message) ->
     auto_login signer login_post json_parse login_message_to_vec from_utf8 base64_encode
       our_node now
     = attempt_login login_post json_parse from_utf8 base64_encode our_node message signature) /\
  ((signer NetKeySign challenge = Replied None \/
    exists signature verified,
      signer NetKeySign challenge = Replied (Some signature) /\
      signer (NetKeyVerify our_node signature) challenge = Replied verified /\
      signer NetKeyMakeMessage challenge = Replied None) ->
   handle_page_request signer login_post json_parse login_message_to_vec from_utf8
     base64_encode run_proxy_pkg our_node now http_request None = (Panic "get_blob", None, [])).
Proof.
  intros. split; [|split; [|split]].
  - intros Hf.
    assert (Ha : exists e,
      auto_login signer login_post json_parse login_message_to_vec from_utf8 base64_encode
        our_node now = Err e).
    { unfold auto_login, attempt_login.
      destruct Hf as [Hs | sg Hs Hv | sg vb Hs Hv Hm | sg vb msg Hs Hv Hm Hp
                     | sg vb msg res Hs Hv Hm Hp Hj | sg vb msg res v Hs Hv Hm Hp Hj Hc];
        try (destruct Hs as [Hs|Hs]; rewrite Hs; eexists; reflexivity);
        rewrite Hs;
        try (destruct Hv as [Hv|Hv]; rewrite Hv; eexists; reflexivity);
        rewrite Hv;
        try (destruct Hm as [Hm|Hm]; rewrite Hm; eexists; reflexivity);
        rewrite Hm, Hp; try (eexists; reflexivity);
        rewrite Hj; try (eexists; reflexivity);
        rewrite Hc; eexists; reflexivity. }
    destruct Ha as [e He]. exists e. split; [exact He|].
    unfold handle_page_request. rewrite He. reflexivity.
  - intros o cookie effects H. unfold handle_page_request in H.
    destruct (auto_login signer login_post json_parse login_message_to_vec from_utf8
                base64_encode our_node now) as [[c|]|e|m] eqn:Ea;
      injection H as <- <- _; split; intros; try discriminate; auto.
    injection H as ->. auto.
  - intros signature verified message Hs Hv Hm. unfold auto_login.
    fold challenge. rewrite Hs, Hv, Hm. reflexivity.
  - intros Hn. unfold handle_page_request, auto_login. fold challenge.
    destruct Hn as [Hs | (signature & verified & Hs & Hv & Hm)].
    + rewrite Hs. reflexivity.
    + rewrite Hs, Hv, Hm. reflexivity.
Qed.

Lemma auto_login_failure_keeps_session_witness :
  LoginFailsAt demo_signer demo_login_bad demo_json_parse (fun _ => "{}") (fun s => Some s)
    (fun s => s) "alice.os" 1700 /\
  demo_handle_page_request demo_signer demo_login_bad None
    = (Err "Signature verification failed", None, []) /\
  auto_login (signer_seen demo_signer_rejecting) demo_login_ok demo_json_parse (fun _ => "{}")
    (fun s => Some s) (fun s => s) "alice.os" 1700
  = attempt_login demo_login_ok demo_json_parse (fun s => Some s) (fun s => s) "alice.os"
      "msg" "sig" /\
  demo_handle_page_request (signer_seen demo_signer_sign_error) demo_login_ok None
  = (Panic "get_blob", None, []).
Proof.
  assert (Hf : LoginFailsAt demo_signer demo_login_bad demo_json_parse (fun _ => "{}")
                 (fun s => Some s) (fun s => s) "alice.os" 1700).
  { apply (login_response_without_cookie _ _ _ _ _ _ _ _ "sig" None "msg"
             (mkUpstream 200 [] "bad") (JObject [("error", JString "bad signature")]));
      reflexivity. }
  split; [exact Hf|]. split; [|split].
  - destruct (proj1 (auto_login_failure_keeps_session demo_signer demo_login_bad demo_json_parse
                       (fun _ => "{}") (fun s => Some s) (fun s => s) (fun _ _ _ _ => (Ok tt, []))
                       "alice.os" 1700 demo_request) Hf) as [e [He Hh]].
    unfold demo_handle_page_request. rewrite Hh. vm_compute in He. injection He as <-.
    reflexivity.
  - exact (proj1 (proj2 (proj2 (auto_login_failure_keeps_session
             (signer_seen demo_signer_rejecting) demo_login_ok demo_json_parse
             (fun _ => "{}") (fun s => Some s) (fun s => s) (fun _ _ _ _ => (Ok tt, []))
             "alice.os" 1700 demo_request)))
             "sig" None "msg" eq_refl eq_refl eq_refl).
  - exact (proj2 (proj2 (proj2 (auto_login_failure_keeps_session
             (signer_seen demo_signer_sign_error) demo_login_ok demo_json_parse
             (fun _ => "{}") (fun s => Some s) (fun s => s) (fun _ _ _ _ => (Ok tt, []))
             "alice.os" 1700 demo_request)))
             (or_introl eq_refl)).
Defined.

(** C2, counterexample: with the signer unreachable, the request that found
    no session gets no HTTP response at all: [auto_login]'s error leaves
    [handle_page_request] through [?] before [send_refresh_response]. *)
Lemma handle_page_request_failed_login_sends_nothing :
  demo_handle_page_request demo_signer_down demo_login_ok None
    = (Err "Failed to send request", None, []).
Proof. vm_compute. reflexivity. Qed.

(** C2, as amended: without a session cookie, a successful login sends
    exactly one response, the refresh page with status 302, and nothing is
    proxied; a login that returns an error sends nothing and
    [handle_page_request] returns that error, the session still absent. *)
Theorem handle_page_request_without_session :
  forall signer login_post json_parse login_message_to_vec from_utf8 base64_encode
         run_proxy_pkg our_node now http_request,
  (forall c,
     auto_login signer login_post json_parse login_message_to_vec from_utf8 base64_encode
       our_node now = Ok (Some c) ->
     handle_page_request signer login_post json_parse login_message_to_vec from_utf8
       base64_encode run_proxy_pkg our_node now http_request None
     = (Ok tt, Some c, [SendResponse (send_refresh_response 1 c)]) /\
     resp_status (send_refresh_response 1 c) = 302 /\
     resp_body (send_refresh_response 1 c) = refresh_html "1" (PACKAGE_PATH ++ "/home")) /\
  (forall e,
     auto_login signer login_post json_parse login_message_to_vec from_utf8 base64_encode
       our_node now = Err e ->
     handle_page_request signer login_post json_parse login_message_to_vec from_utf8
       base64_encode run_proxy_pkg our_node now http_request None = (Err e, None, [])).
Proof.
  intros. split.
  - intros c Ha. unfold handle_page_request. rewrite Ha. auto.
  - intros e Ha. unfold handle_page_request. rewrite Ha. reflexivity.
Qed.

Lemma handle_page_request_without_session_witness :
  demo_handle_page_request demo_signer demo_login_ok None
    = (Ok tt, Some "hyperware_token=abc123; path=/;",
       [SendResponse (send_refresh_response 1 "hyperware_token=abc123; path=/;")]) /\
  demo_handle_page_request demo_signer_down demo_login_ok None
    = (Err "Failed to send request", None, []).
Proof.
  pose proof (handle_page_request_without_session demo_signer demo_login_ok demo_json_parse
                (fun _ => "{}") (fun s => Some s) (fun s => s) (fun _ _ _ _ => (Ok tt, []))
                "alice.os" 1700 demo_request) as [Hok _].
  pose proof (handle_page_request_without_session demo_signer_down demo_login_ok demo_json_parse
                (fun _ => "{}") (fun s => Some s) (fun s => s) (fun _ _ _ _ => (Ok tt, []))
                "alice.os" 1700 demo_request) as [_ Herr].
  split.
  - exact (proj1 (Hok _ ltac:(vm_compute; reflexivity))).
  - exact (Herr _ ltac:(vm_compute; reflexivity)).
Defined.

(** C10 (the refresh page carries the new cookie): when the auto-login
    succeeds with cookie [c], the one response sent for the request has
    status 302 (FOUND) and Set-Cookie [c]; the responses of [run_proxy]
    carry no Set-Cookie header. *)
Theorem refresh_response_sets_new_cookie :
  forall signer login_post json_parse login_message_to_vec from_utf8 base64_encode
         run_proxy_pkg our_node now http_request c,
  auto_login signer login_post json_parse login_message_to_vec from_utf8 base64_encode
    our_node now = Ok (Some c) ->
  exists r,
    handle_page_request signer login_post json_parse login_message_to_vec from_utf8
      base64_encode run_proxy_pkg our_node now http_request None = (Ok tt, Some c, [SendResponse r]) /\
    resp_status r = 302 /\
    header_get "Set-Cookie" (resp_headers r) = Some c /\
    (forall Url_parse html_parse html_render from_utf8_lossy upstream blob request web2_url
            cookie r',
       In (SendResponse r')
          (snd (run_proxy Url_parse html_parse html_render from_utf8_lossy upstream
                  blob request web2_url cookie)) ->
       header_get "set-cookie" (resp_headers r') = None).
Proof.
  intros until c. intros Ha.
  exists (send_refresh_response 1 c). unfold handle_page_request. rewrite Ha.
  split; [reflexivity|]. split; [reflexivity|]. split; [reflexivity|].
  intros until r'. intros H.
  destruct (run_proxy_sent_inv _ _ _ _ _ _ _ _ _ _ H)
    as (body & u & base & method & resp & ct & _ & _ & _ & _ & _ & _ & _ & _ & Hr).
  rewrite Hr. reflexivity.
Qed.

Lemma refresh_response_sets_new_cookie_witness :
  auto_login demo_signer demo_login_ok demo_json_parse (fun _ => "{}") (fun s => Some s)
    (fun s => s) "alice.os" 1700 = Ok (Some "hyperware_token=abc123; path=/;") /\
  exists r,
    demo_handle_page_request demo_signer demo_login_ok None
      = (Ok tt, Some "hyperware_token=abc123; path=/;", [SendResponse r]) /\
    resp_status r = 302 /\
    header_get "Set-Cookie" (resp_headers r) = Some "hyperware_token=abc123; path=/;".
Proof.
  assert (Ha : auto_login demo_signer demo_login_ok demo_json_parse (fun _ => "{}")
                 (fun s => Some s) (fun s => s) "alice.os" 1700
               = Ok (Some "hyperware_token=abc123; path=/;")) by (vm_compute; reflexivity).
  split; [exact Ha|].
  destruct (refresh_response_sets_new_cookie demo_signer demo_login_ok demo_json_parse
              (fun _ => "{}") (fun s => Some s) (fun s => s) (fun _ _ _ _ => (Ok tt, []))
              "alice.os" 1700 demo_request _ Ha) as (r & H1 & H2 & H3 & _).
  exists r. auto.
Defined.

(** ** The HTML rewriter *)

(** Induction on documents, with the hypothesis on every child. *)
Fixpoint Node_ind' (P : Node -> Prop)
  (HE : forall tag attrs children, Forall P children -> P (Element tag attrs children))
  (HT : forall t, P (Text t)) (HR : forall h, P (Raw h)) (n : Node) {struct n} : P n :=
  match n with
  | Element tag attrs children =>
      HE tag attrs children
        ((fix go (l : list Node) : Forall P l :=
            match l with
            | [] => Forall_nil P
            | x :: l' => Forall_cons x (Node_ind' P HE HT HR x) (go l')
            end) children)
  | Text t => HT t
  | Raw h => HR h
  end.

Lemma get_set_attribute_same :
  forall attrs name v w, get_attribute attrs name = Some v ->
  get_attribute (set_attribute attrs name w) name = Some w.
Proof.
  induction attrs as [|[n x] attrs IH]; intros name v w H; simpl in *; [discriminate|].
  destruct (String.eqb n name) eqn:E; simpl; rewrite ?E; [reflexivity|].
  eapply IH; exact H.
Qed.

Lemma get_set_attribute_other :
  forall attrs name name' w, String.eqb name name' = false ->
  get_attribute (set_attribute attrs name w) name' = get_attribute attrs name'.
Proof.
  induction attrs as [|[n x] attrs IH]; intros name name' w Hne; simpl.
  - rewrite Hne. reflexivity.
  - destruct (String.eqb n name) eqn:E; simpl.
    + apply String.eqb_eq in E. subst n. rewrite Hne. reflexivity.
    + destruct (String.eqb n name'); [reflexivity|]. apply IH, Hne.
Qed.

(** One step of the [[href],[src]] handler, on the attribute it handles and
    on the other one. *)
Lemma url_handler_step_same :
  forall prefix attrs attr,
  get_attribute
    (match get_attribute attrs attr with
     | Some value =>
         if prefix_of "/" value
         then set_attribute attrs attr ("/" ++ prefix ++ "/" ++ trim_start_slashes value)
         else attrs
     | None => attrs
     end) attr
  = option_map (fun v => if prefix_of "/" v then "/" ++ prefix ++ "/" ++ trim_start_slashes v else v)
      (get_attribute attrs attr).
Proof.
  intros. destruct (get_attribute attrs attr) as [v|] eqn:E; cbn [option_map]; [|exact E].
  destruct (prefix_of "/" v); [|exact E]. eapply get_set_attribute_same; exact E.
Qed.

Lemma url_handler_step_other :
  forall prefix attrs attr attr', String.eqb attr attr' = false ->
  get_attribute
    (match get_attribute attrs attr with
     | Some value =>
         if prefix_of "/" value
         then set_attribute attrs attr ("/" ++ prefix ++ "/" ++ trim_start_slashes value)
         else attrs
     | None => attrs
     end) attr'
  = get_attribute attrs attr'.
Proof.
  intros. destruct (get_attribute attrs attr) as [v|]; [|reflexivity].
  destruct (prefix_of "/" v); [|reflexivity]. apply get_set_attribute_other; assumption.
Qed.

Lemma url_handler_get :
  forall prefix attrs attr, In attr url_attributes ->
  get_attribute (if matches_url_selector attrs then rewrite_url_attributes prefix attrs else attrs) attr
  = option_map (fun v => if prefix_of "/" v then "/" ++ prefix ++ "/" ++ trim_start_slashes v else v)
      (get_attribute attrs attr).
Proof.
  intros prefix attrs attr Hin.
  destruct (matches_url_selector attrs) eqn:Esel.
  - unfold rewrite_url_attributes, url_attributes. cbn [fold_left].
    simpl in Hin. destruct Hin as [<-|[<-|[]]].
    + rewrite url_handler_step_other by reflexivity. apply url_handler_step_same.
    + rewrite url_handler_step_same. f_equal.
      apply url_handler_step_other. reflexivity.
  - unfold matches_url_selector, url_attributes in Esel. simpl in Esel.
    simpl in Hin. destruct Hin as [<-|[<-|[]]].
    + destruct (get_attribute attrs "href"); [discriminate|reflexivity].
    + destruct (get_attribute attrs "href"); [discriminate|].
      destruct (get_attribute attrs "src"); [discriminate|reflexivity].
Qed.

(** [modify_node] keeps the elements, in order, and only changes their
    attributes through the [[href],[src]] handler. *)
Lemma modify_node_elements :
  forall prefix n parent,
  elements (modify_node prefix parent n)
  = map (fun '(tag, attrs) =>
           (tag, if matches_url_selector attrs then rewrite_url_attributes prefix attrs else attrs))
        (elements n).
Proof.
  intros prefix n. induction n as [tag attrs children IH | t | h] using Node_ind'; intros parent.
  - simpl. f_equal. rewrite flat_map_app.
    replace (flat_map elements (if String.eqb tag "head" then [Raw (mother_script prefix)] else []))
      with (@nil (string * list (string * string)))
      by (destruct (String.eqb tag "head"); reflexivity).
    simpl. induction IH as [|x l Hx Hl IHl]; [reflexivity|].
    simpl. rewrite map_app, Hx, IHl. reflexivity.
  - simpl. destruct (String.eqb parent "script"); reflexivity.
  - reflexivity.
Qed.

(** C5 (HTML href/src rewriting): for a prefix without leading or trailing
    slash, the elements of the rewritten document are those of the input,
    in order and with the same tags, and the [href] and [src] values of each
    are the input's values, rewritten to [/{prefix}/{value}] with the
    leading slashes of [value] removed when [value] starts with a slash, and
    unchanged otherwise. *)
Theorem modify_html_rewrites_root_relative_urls :
  forall doc prefix, trim_matches_slash prefix = prefix ->
  Forall2
    (fun before after =>
       fst after = fst before /\
       forall attr, In attr url_attributes ->
         get_attribute (snd after) attr =
         match get_attribute (snd before) attr with
         | Some value =>
             Some (if prefix_of "/" value
                   then "/" ++ prefix ++ "/" ++ trim_start_slashes value
                   else value)
         | None => None
         end)
    (document_elements doc) (document_elements (modify_html doc prefix)).
Proof.
  intros doc prefix Hp. unfold modify_html, document_elements. rewrite Hp.
  assert (Heq : flat_map elements (map (modify_node prefix EmptyString) doc)
                = map (fun '(tag, attrs) =>
                         (tag, if matches_url_selector attrs
                               then rewrite_url_attributes prefix attrs else attrs))
                      (flat_map elements doc)).
  { induction doc as [|n doc IH]; [reflexivity|].
    simpl. rewrite map_app, modify_node_elements, IH. reflexivity. }
  rewrite Heq. clear Heq.
  induction (flat_map elements doc) as [|[tag attrs] l IHl]; simpl; [constructor|].
  constructor; [|exact IHl]. simpl. split; [reflexivity|]. intros attr Hin. rewrite url_handler_get by exact Hin.
  destruct (get_attribute attrs attr); reflexivity.
Qed.

Definition demo_document : list Node :=
  [Element "html" []
     [Element "head" [] [Element "link" [("rel", "stylesheet"); ("href", "/a/b.css")] []];
      Element "body" []
        [Element "a" [("href", "https://x")] [Text "out"];
         Element "img" [("src", "/img/logo.png")] []]]].

Lemma modify_html_rewrites_root_relative_urls_witness :
  trim_matches_slash "p" = "p" /\
  map (fun e => (get_attribute (snd e) "href", get_attribute (snd e) "src"))
      (document_elements (modify_html demo_document "p"))
  = [(None, None); (None, None); (Some "/p/a/b.css", None); (None, None);
     (Some "https://x", None); (None, Some "/p/img/logo.png")] /\
  Forall2
    (fun before after =>
       fst after = fst before /\
       forall attr, In attr url_attributes ->
         get_attribute (snd after) attr =
         match get_attribute (snd before) attr with
         | Some value =>
             Some (if prefix_of "/" value then "/" ++ "p" ++ "/" ++ trim_start_slashes value
                   else value)
         | None => None
         end)
    (document_elements demo_document) (document_elements (modify_html demo_document "p")).
Proof.
  split; [reflexivity|]. split; [vm_compute; reflexivity|].
  exact (modify_html_rewrites_root_relative_urls demo_document "p" eq_refl).
Defined.

(** ** The text rewriters *)

Lemma str_app_assoc : forall a b c : string, (a ++ b) ++ c = a ++ b ++ c.
Proof. induction a as [|x a IH]; intros; simpl; [reflexivity|]. rewrite IH. reflexivity. Qed.

Lemma str_length_app :
  forall a b : string, String.length (a ++ b) = String.length a + String.length b.
Proof. induction a as [|x a IH]; intros; simpl; [reflexivity|]. rewrite IH. reflexivity. Qed.

Lemma strip_prefix_app : forall pre s, strip_prefix pre (pre ++ s) = Some s.
Proof.
  induction pre as [|a pre IH]; intros s; simpl; [reflexivity|].
  rewrite Ascii.eqb_refl. apply IH.
Qed.

Lemma strip_prefix_prefix_of :
  forall pre s, prefix_of pre s = false -> strip_prefix pre s = None.
Proof.
  induction pre as [|a pre IH]; intros s H; simpl in *; [discriminate|].
  destruct s as [|b s]; [reflexivity|].
  destruct (Ascii.eqb a b); simpl in H; [apply IH, H|reflexivity].
Qed.

Lemma strip_prefix_inv :
  forall pre s t, strip_prefix pre s = Some t -> s = pre ++ t.
Proof.
  induction pre as [|a pre IH]; intros s t H; simpl in H.
  - injection H as <-. reflexivity.
  - destruct s as [|b s]; [discriminate|].
    destruct (Ascii.eqb a b) eqn:E; [|discriminate].
    apply Ascii.eqb_eq in E. subst b. simpl. rewrite (IH s t H). reflexivity.
Qed.

Lemma take_until_no_char :
  forall c before after, no_char c before = true ->
  take_until c (before ++ String c after) = Some (before, after).
Proof.
  intros c. induction before as [|a before IH]; intros after H; simpl in *.
  - rewrite Ascii.eqb_refl. reflexivity.
  - apply andb_prop in H as [Ha H]. apply negb_true_iff in Ha. rewrite Ha, IH by exact H.
    reflexivity.
Qed.

Lemma take_until_inv :
  forall c s before after, take_until c s = Some (before, after) ->
  s = before ++ String c after /\ no_char c before = true.
Proof.
  intros c. induction s as [|a s IH]; intros before after H; simpl in H; [discriminate|].
  destruct (Ascii.eqb a c) eqn:E.
  - injection H as <- <-. apply Ascii.eqb_eq in E. subst a. split; reflexivity.
  - destruct (take_until c s) as [[b0 a0]|]; [|discriminate].
    injection H as <- <-. destruct (IH b0 a0 eq_refl) as [-> Hn].
    simpl. rewrite E, Hn. split; reflexivity.
Qed.

Lemma no_char_app :
  forall c a b, no_char c (a ++ b) = no_char c a && no_char c b.
Proof.
  intros c. induction a as [|x a IH]; intros b; simpl; [reflexivity|].
  rewrite IH. apply andb_assoc.
Qed.

Lemma split_last_snoc : forall s a, split_last (s ++ String a EmptyString) = Some (s, a).
Proof.
  induction s as [|x s IH]; intros a; [reflexivity|].
  change ((String x s) ++ String a EmptyString) with (String x (s ++ String a EmptyString)).
  simpl. rewrite IH. destruct s; reflexivity.
Qed.

(** The byte pair backslash, quote is the only one [remove_escaped_quotes]
    drops. *)
Lemma remove_escaped_quotes_cons :
  forall c u,
  match u with
  | String d _ => negb (Ascii.eqb c bs_char && Ascii.eqb d dq_char)
  | EmptyString => true
  end = true ->
  remove_escaped_quotes (String c u) = String c (remove_escaped_quotes u).
Proof.
  intros c u H. destruct (Ascii.eqb c bs_char) eqn:Ec.
  - apply Ascii.eqb_eq in Ec. subst c. destruct u as [|d t]; [reflexivity|].
    simpl in H. destruct d as [[] [] [] [] [] [] [] []]; try reflexivity; discriminate H.
  - destruct u as [|d t];
      destruct c as [[] [] [] [] [] [] [] []]; try reflexivity; discriminate Ec.
Qed.

Lemma remove_escaped_quotes_body :
  forall body post, no_char dq_char body = true ->
  remove_escaped_quotes (body ++ bs_dq ++ post) = body ++ remove_escaped_quotes post.
Proof.
  induction body as [|c t IH]; intros post H.
  - reflexivity.
  - simpl in H. apply andb_prop in H as [Hc Ht]. apply negb_true_iff in Hc.
    change (String c t ++ bs_dq ++ post) with (String c (t ++ bs_dq ++ post)).
    rewrite remove_escaped_quotes_cons.
    + rewrite IH by exact Ht. reflexivity.
    + destruct t as [|d t'].
      * unfold bs_dq. simpl. rewrite andb_false_r. reflexivity.
      * simpl in Ht. apply andb_prop in Ht as [Hd _]. apply negb_true_iff in Hd.
        simpl. rewrite Hd, andb_false_r. reflexivity.
Qed.

Lemma files_find_at_match :
  forall body post, no_char dq_char body = true -> has_dot_ext body = true ->
  files_find_at (bs_dq ++ "/" ++ body ++ bs_dq ++ post)
  = Some (bs_dq ++ "/" ++ body ++ bs_dq, post).
Proof.
  intros body post Hq He. unfold files_find_at.
  rewrite <- (str_app_assoc bs_dq "/"), strip_prefix_app.
  replace (body ++ bs_dq ++ post) with ((body ++ String bs_char EmptyString) ++ String dq_char post)
    by (rewrite str_app_assoc; reflexivity).
  rewrite (take_until_no_char dq_char (body ++ String bs_char EmptyString) post)
    by (rewrite no_char_app, Hq; reflexivity).
  rewrite split_last_snoc, He. reflexivity.
Qed.

Lemma css_find_at_match :
  forall body rest, body <> EmptyString -> no_char ")"%char body = true ->
  css_find_at ("url(/" ++ body ++ ")" ++ rest) = Some ("/" ++ body, rest).
Proof.
  intros body rest Hne Hn. unfold css_find_at.
  rewrite strip_prefix_app. change (")" ++ rest) with (String ")"%char rest).
  rewrite take_until_no_char by exact Hn.
  destruct body; [contradiction|reflexivity].
Qed.

Lemma css_find_at_inv :
  forall s cap rest, css_find_at s = Some (cap, rest) ->
  exists body, cap = "/" ++ body /\ body <> EmptyString /\ no_char ")"%char body = true /\
               s = "url(/" ++ body ++ ")" ++ rest.
Proof.
  unfold css_find_at. intros s cap rest H.
  destruct (strip_prefix "url(/" s) as [t|] eqn:E; [|discriminate].
  destruct (take_until ")"%char t) as [[body r]|] eqn:E2; [|discriminate].
  destruct body as [|x body']; [discriminate|]. injection H as <- <-.
  apply strip_prefix_inv in E. apply take_until_inv in E2 as [-> Hn].
  exists (String x body'). split; [reflexivity|]. split; [discriminate|].
  split; [exact Hn|]. exact E.
Qed.


Lemma js_find_at_other :
  forall s, prefix_of "_next/" s = false -> js_find_at s = None.
Proof. intros s H. unfold js_find_at. rewrite strip_prefix_prefix_of by exact H. reflexivity. Qed.

Lemma str_app_nil : forall s : string, s ++ EmptyString = s.
Proof. induction s as [|x s IH]; simpl; [reflexivity|]. rewrite IH. reflexivity. Qed.

(** [replace_urls_css] never shortens its input. *)
Lemma replace_urls_css_fuel_grows :
  forall n s output, String.length s <= n ->
  String.length s <=
  String.length
    (replace_all_fuel css_find_at (fun capture => "url(/" ++ output ++ capture ++ ")") n s).
Proof.
  induction n as [|n IH]; intros s output Hn.
  - simpl. lia.
  - cbn [replace_all_fuel]. destruct (css_find_at s) as [[cap rest]|] eqn:E.
    + pose proof (css_find_at_shrinks _ _ _ E) as Hl.
      apply css_find_at_inv in E as (body & -> & _ & _ & ->).
      specialize (IH rest output ltac:(lia)).
      set (R := replace_all_fuel _ _ n rest) in *.
      rewrite !str_length_app in *. simpl in *. lia.
    + destruct s as [|c t]; cbn [String.length]; [lia|].
      specialize (IH t output ltac:(simpl in Hn; lia)). lia.
Qed.

(** A match anywhere makes the output of [replace_urls_css] strictly longer
    than the input: each replacement adds the prefix and a slash. *)
Lemma replace_urls_css_fuel_grows_strict :
  forall n a b cap rest output, String.length (a ++ b) <= n ->
  css_find_at b = Some (cap, rest) ->
  String.length (a ++ b) <
  String.length
    (replace_all_fuel css_find_at (fun capture => "url(/" ++ output ++ capture ++ ")") n (a ++ b)).
Proof.
  induction n as [|n IH]; intros a b cap rest output Hn Hb.
  - pose proof (css_find_at_shrinks _ _ _ Hb). rewrite str_length_app in Hn. lia.
  - cbn [replace_all_fuel]. destruct (css_find_at (a ++ b)) as [[cap' rest']|] eqn:E.
    + pose proof (css_find_at_shrinks _ _ _ E) as Hl.
      pose proof (replace_urls_css_fuel_grows n rest' output ltac:(lia)) as Hg.
      apply css_find_at_inv in E as (body & -> & _ & _ & Es). rewrite Es in *.
      set (R := replace_all_fuel _ _ n rest') in *.
      rewrite !str_length_app in *. simpl in *. lia.
    + destruct a as [|c a'].
      * simpl in E. rewrite E in Hb. discriminate.
      * change (String c a' ++ b) with (String c (a' ++ b)) in *.
        cbn [String.length] in *.
        specialize (IH a' b cap rest output ltac:(lia) Hb). lia.
Qed.

(** When the prefix has no closing parenthesis, every replacement
    [url(/{output}{capture})] is itself a match of the pattern, so an output
    of a rewrite that replaced something contains a match again. *)
Lemma replace_urls_css_fuel_rematch :
  forall n a b cap rest output, no_char ")"%char output = true ->
  String.length (a ++ b) <= n -> css_find_at b = Some (cap, rest) ->
  exists a' b' cap' rest',
    replace_all_fuel css_find_at (fun capture => "url(/" ++ output ++ capture ++ ")") n (a ++ b)
    = a' ++ b' /\ css_find_at b' = Some (cap', rest').
Proof.
  induction n as [|n IH]; intros a b cap rest output Hp Hn Hb.
  - pose proof (css_find_at_shrinks _ _ _ Hb). rewrite str_length_app in Hn. lia.
  - cbn [replace_all_fuel]. destruct (css_find_at (a ++ b)) as [[cap' rest']|] eqn:E.
    + apply css_find_at_inv in E as (body & -> & Hne & Hnc & _).
      set (tail := replace_all_fuel css_find_at
                     (fun capture => "url(/" ++ output ++ capture ++ ")") n rest').
      exists EmptyString, ("url(/" ++ output ++ ("/" ++ body) ++ ")" ++ tail),
        ("/" ++ (output ++ "/" ++ body)), tail.
      split; [rewrite !str_app_assoc; reflexivity|].
      replace ("url(/" ++ output ++ ("/" ++ body) ++ ")" ++ tail)
        with ("url(/" ++ (output ++ "/" ++ body) ++ ")" ++ tail)
        by (rewrite !str_app_assoc; reflexivity).
      apply css_find_at_match.
      * destruct output; discriminate.
      * rewrite no_char_app, Hp. simpl. exact Hnc.
    + destruct a as [|c a'].
      * simpl in E. rewrite E in Hb. discriminate.
      * change (String c a' ++ b) with (String c (a' ++ b)) in *.
        cbn [String.length] in Hn.
        destruct (IH a' b cap rest output Hp ltac:(lia) Hb) as (a'' & b'' & cap'' & rest'' & Eo & Em).
        exists (String c a''), b'', cap'', rest''. split; [|exact Em].
        rewrite Eo. reflexivity.
Qed.

Lemma replace_urls_css_single :
  forall body rest output, body <> EmptyString -> no_char ")"%char body = true ->
  replace_urls_css ("url(/" ++ body ++ ")" ++ rest) output
  = "url(/" ++ output ++ "/" ++ body ++ ")" ++ replace_urls_css rest output.
Proof.
  intros body rest output Hne Hn. unfold replace_urls_css.
  rewrite (replace_all_match css_find_at _ css_find_at_shrinks eq_refl _ _ _
             (css_find_at_match body rest Hne Hn)).
  rewrite !str_app_assoc. reflexivity.
Qed.




(** C7 (inline-script file paths), counterexample: the escaped quotes
    around a matched path are written back around the prefixed path. *)
Lemma replace_files_keeps_escaped_quotes :
  replace_files (bs_dq ++ "/a.js" ++ bs_dq) "p" = bs_dq ++ "/p/a.js" ++ bs_dq /\
  contains bs_dq (replace_files (bs_dq ++ "/a.js" ++ bs_dq) "p") = true.
Proof. split; vm_compute; reflexivity. Qed.

Lemma split_last_inv :
  forall s init l, split_last s = Some (init, l) -> s = init ++ String l EmptyString.
Proof.
  induction s as [|a s IH]; intros init l H; [discriminate|].
  destruct s as [|b s'].
  - injection H as <- <-. reflexivity.
  - change (split_last (String a (String b s')))
      with (match split_last (String b s') with
            | Some (init, l) => Some (String a init, l)
            | None => None
            end) in H.
    destruct (split_last (String b s')) as [[i0 l0]|] eqn:E; [|discriminate].
    injection H as <- <-. rewrite (IH i0 l0 eq_refl). reflexivity.
Qed.

Lemma files_find_at_inv :
  forall s cap rest, files_find_at s = Some (cap, rest) ->
  exists body, s = bs_dq ++ "/" ++ body ++ bs_dq ++ rest /\
               no_char dq_char body = true /\ has_dot_ext body = true.
Proof.
  intros s cap rest H. unfold files_find_at in H.
  destruct (strip_prefix (bs_dq ++ "/") s) as [t|] eqn:E1; [|discriminate].
  destruct (take_until dq_char t) as [[b r]|] eqn:E2; [|discriminate].
  destruct (split_last b) as [[inner l]|] eqn:E3; [|discriminate].
  destruct (Ascii.eqb l bs_char && has_dot_ext inner) eqn:E4; [|discriminate].
  injection H as _ <-. apply andb_prop in E4 as [El He].
  apply Ascii.eqb_eq in El. subst l.
  apply strip_prefix_inv in E1. apply take_until_inv in E2 as [Et Hn].
  apply split_last_inv in E3. subst t b.
  exists inner. split; [|split; [|exact He]].
  - rewrite E1, !str_app_assoc. reflexivity.
  - rewrite no_char_app in Hn. apply andb_prop in Hn as [Hn _]. exact Hn.
Qed.

(** C7 (inline-script file paths), amended: scanning the text left to
    right, a match (an escaped quote, a slash, a body without double quote
    that contains one of the dotted extensions, and an escaped quote) is
    rewritten to the escaped quote, a slash, the prefix, a slash, the body
    and the escaped quote: the path is prefixed with [/{output}] and stays
    between escaped quotes.  A byte where no match starts is copied
    unchanged, and the scan goes on after it; the empty text stays empty. *)
Theorem replace_files_prefixes_path :
  forall output,
  replace_files EmptyString output = EmptyString /\
  (forall body post, no_char dq_char body = true -> has_dot_ext body = true ->
   replace_files (bs_dq ++ "/" ++ body ++ bs_dq ++ post) output
   = bs_dq ++ "/" ++ output ++ "/" ++ body ++ bs_dq ++ replace_files post output) /\
  (forall c s,
   (forall body post, no_char dq_char body = true -> has_dot_ext body = true ->
    String c s <> bs_dq ++ "/" ++ body ++ bs_dq ++ post) ->
   replace_files (String c s) output = String c (replace_files s output)).
Proof.
  intros output. split; [reflexivity|]. split.
  - intros body post Hq He. unfold replace_files.
    rewrite (replace_all_match files_find_at _ files_find_at_shrinks eq_refl _ _ _
               (files_find_at_match body post Hq He)).
    change (remove_escaped_quotes (bs_dq ++ "/" ++ body ++ bs_dq))
      with ("/" ++ remove_escaped_quotes (body ++ bs_dq)).
    rewrite <- (str_app_nil bs_dq) at 2.
    rewrite remove_escaped_quotes_body by exact Hq. simpl remove_escaped_quotes.
    rewrite str_app_nil, !str_app_assoc. reflexivity.
  - intros c s Hno. unfold replace_files. apply replace_all_nomatch.
    destruct (files_find_at (String c s)) as [[cap rest]|] eqn:E; [|reflexivity].
    apply files_find_at_inv in E as (body & Es & Hq & He).
    exfalso. exact (Hno body rest Hq He Es).
Qed.

Lemma replace_files_prefixes_path_witness :
  no_char dq_char "a/b.js" = true /\ has_dot_ext "a/b.js" = true /\
  (forall body post, no_char dq_char body = true -> has_dot_ext body = true ->
   String "x" (String "=" (bs_dq ++ "/" ++ "a/b.js" ++ bs_dq ++ ";"))
   <> bs_dq ++ "/" ++ body ++ bs_dq ++ post) /\
  replace_files ("x=" ++ bs_dq ++ "/" ++ "a/b.js" ++ bs_dq ++ ";") "p"
  = "x=" ++ bs_dq ++ "/" ++ "p" ++ "/" ++ "a/b.js" ++ bs_dq ++ ";".
Proof.
  assert (Hx : forall body post, no_char dq_char body = true -> has_dot_ext body = true ->
    String "x" (String "=" (bs_dq ++ "/" ++ "a/b.js" ++ bs_dq ++ ";"))
   <> bs_dq ++ "/" ++ body ++ bs_dq ++ post)
    by (intros body post _ _ H; discriminate H).
  assert (Heq : forall body post, no_char dq_char body = true -> has_dot_ext body = true ->
    String "=" (bs_dq ++ "/" ++ "a/b.js" ++ bs_dq ++ ";") <> bs_dq ++ "/" ++ body ++ bs_dq ++ post)
    by (intros body post _ _ H; discriminate H).
  split; [reflexivity|]. split; [reflexivity|]. split; [exact Hx|].
  destruct (replace_files_prefixes_path "p") as [Hnil [Hm Ho]].
  change ("x=" ++ bs_dq ++ "/" ++ "a/b.js" ++ bs_dq ++ ";")
    with (String "x" (String "=" (bs_dq ++ "/" ++ "a/b.js" ++ bs_dq ++ ";"))).
  rewrite (Ho "x"%char _ Hx).
  rewrite (Ho "="%char _ Heq).
  rewrite (Hm "a/b.js" ";" eq_refl eq_refl).
  rewrite (Ho ";"%char EmptyString ltac:(intros body post _ _ H; discriminate H)), Hnil.
  reflexivity.
Defined.

(** C8 (CSS rewriter is not idempotent), counterexample: [url(/)] has an
    argument starting with a slash but is not matched by the pattern, which
    needs a byte after the slash, and a prefix holding a closing parenthesis
    turns the rewritten reference into one the second pass does not match:
    with the prefix [)], [url(/x)] becomes [url(/)/x)]; in both cases the
    second pass changes nothing. *)
Lemma replace_urls_css_second_pass_unchanged :
  replace_urls_css (replace_urls_css "a{b:url(/)}" "p") "p" = replace_urls_css "a{b:url(/)}" "p" /\
  replace_urls_css "url(/x)" ")" = "url(/)/x)" /\
  replace_urls_css (replace_urls_css "url(/x)" ")") ")" = replace_urls_css "url(/x)" ")".
Proof. split; [|split]; vm_compute; reflexivity. Qed.

(** C8 (CSS rewriter is not idempotent), amended: for a CSS input holding
    [url(/{body})] with a nonempty [body] free of closing parentheses, and a
    prefix free of closing parentheses, a second pass with the same prefix
    changes the output; [url(/{body})] alone becomes
    [url(/{prefix}/{prefix}/{body})] after two passes.  A [url(/)]
    reference is never rewritten: the pattern needs a byte after the
    slash. *)
Theorem replace_urls_css_not_idempotent :
  forall a body b output,
  body <> EmptyString -> no_char ")"%char body = true -> no_char ")"%char output = true ->
  replace_urls_css (replace_urls_css (a ++ "url(/" ++ body ++ ")" ++ b) output) output
  <> replace_urls_css (a ++ "url(/" ++ body ++ ")" ++ b) output /\
  replace_urls_css (replace_urls_css ("url(/" ++ body ++ ")") output) output
  = "url(/" ++ output ++ "/" ++ output ++ "/" ++ body ++ ")" /\
  (forall rest, replace_urls_css ("url(/)" ++ rest) output
                = "url(/)" ++ replace_urls_css rest output).
Proof.
  intros a body b output Hne Hn Hp. split; [|split].
  3:{ intros rest. unfold replace_urls_css.
      change ("url(/)" ++ rest) with (String "u" (String "r" (String "l" (String "("
                (String "/" (String ")" rest)))))).
      do 6 (rewrite replace_all_nomatch; [|reflexivity]). reflexivity. }
  - set (s := a ++ "url(/" ++ body ++ ")" ++ b).
    destruct (replace_urls_css_fuel_rematch (String.length s) a ("url(/" ++ body ++ ")" ++ b)
                ("/" ++ body) b output Hp (le_n _) (css_find_at_match body b Hne Hn))
      as (a' & b' & cap' & rest' & Eo & Em).
    assert (Er : replace_urls_css s output = a' ++ b') by exact Eo.
    rewrite Er. intros Heq.
    pose proof (replace_urls_css_fuel_grows_strict (String.length (a' ++ b')) a' b' cap' rest'
                  output (le_n _) Em) as Hlt.
    change (replace_all_fuel css_find_at (fun capture => "url(/" ++ output ++ capture ++ ")")
              (String.length (a' ++ b')) (a' ++ b'))
      with (replace_urls_css (a' ++ b') output) in Hlt.
    rewrite Heq in Hlt. lia.
  - change ("url(/" ++ body ++ ")") with ("url(/" ++ body ++ ")" ++ EmptyString).
    rewrite replace_urls_css_single by assumption.
    replace ("url(/" ++ output ++ "/" ++ body ++ ")" ++ replace_urls_css EmptyString output)
      with ("url(/" ++ (output ++ "/" ++ body) ++ ")" ++ EmptyString)
      by (rewrite !str_app_assoc; reflexivity).
    rewrite replace_urls_css_single.
    + rewrite !str_app_assoc. reflexivity.
    + destruct output; discriminate.
    + rewrite no_char_app, Hp. simpl. exact Hn.
Qed.

Lemma replace_urls_css_not_idempotent_witness :
  "img/x.png" <> EmptyString /\ no_char ")"%char "img/x.png" = true /\ no_char ")"%char "p" = true /\
  replace_urls_css (replace_urls_css ("a{background:" ++ "url(/" ++ "img/x.png" ++ ")" ++ "}") "p") "p"
  <> replace_urls_css ("a{background:" ++ "url(/" ++ "img/x.png" ++ ")" ++ "}") "p".
Proof.
  split; [discriminate|]. split; [reflexivity|]. split; [reflexivity|].
  exact (proj1 (replace_urls_css_not_idempotent "a{background:" "img/x.png" "}" "p"
                  ltac:(discriminate) eq_refl eq_refl)).
Defined.

(** ** The message loop *)

Lemma main_loop_skip :
  forall signer login_post json_parse to_vec from_utf8 base64_encode run_proxy_pkg
         parse_request our_node now m rest cookie,
  handled_message parse_request our_node (now, m) = false ->
  main_loop signer login_post json_parse to_vec from_utf8 base64_encode run_proxy_pkg
    parse_request our_node ((now, m) :: rest) cookie
  = main_loop signer login_post json_parse to_vec from_utf8 base64_encode run_proxy_pkg
      parse_request our_node rest cookie.
Proof.
  intros until cookie. intros H. unfold handled_message in H. simpl in H |- *.
  destruct m as [[node proc body|]|]; [|reflexivity|reflexivity].
  destruct (String.eqb node our_node) eqn:En; simpl in H |- *; [|reflexivity].
  unfold handle_request.
  destruct (String.eqb proc "http-server:distro:sys") eqn:Ep; simpl in H.
  - destruct (parse_request body) as [[req|path ch|ch|ch]|]; try discriminate;
      destruct (main_loop _ _ _ _ _ _ _ _ our_node rest cookie) as [[c' e'] st];
      reflexivity.
  - destruct (main_loop _ _ _ _ _ _ _ _ our_node rest cookie) as [[c' e'] st]; reflexivity.
Qed.

(** X1 (message filtering): [main_loop] acts only on requests of the process
    [http-server:distro:sys] of our own node whose body is not a websocket
    message; receive errors, responses, messages from other nodes or other
    processes and websocket messages are dropped without changing the
    session or sending anything. *)
Theorem main_loop_ignores_unhandled_messages :
  forall signer login_post json_parse to_vec from_utf8 base64_encode run_proxy_pkg
         parse_request our_node messages cookie,
  main_loop signer login_post json_parse to_vec from_utf8 base64_encode run_proxy_pkg
    parse_request our_node messages cookie
  = main_loop signer login_post json_parse to_vec from_utf8 base64_encode run_proxy_pkg
      parse_request our_node (filter (handled_message parse_request our_node) messages) cookie.
Proof.
  intros until messages. induction messages as [|[now m] rest IH]; intros cookie; [reflexivity|].
  destruct (handled_message parse_request our_node (now, m)) eqn:Eh.
  - simpl filter. rewrite Eh. unfold handled_message in Eh. simpl in Eh |- *.
    destruct m as [[node proc body|]|]; try discriminate.
    apply andb_prop in Eh as [Eh _]. apply andb_prop in Eh as [En _]. rewrite En. simpl.
    destruct (handle_request _ _ _ _ _ _ _ _ our_node now proc body cookie) as [[o c'] e].
    destruct o; try reflexivity; rewrite IH; reflexivity.
  - rewrite main_loop_skip by exact Eh. simpl filter. rewrite Eh. apply IH.
Qed.

Lemma main_loop_ignores_unhandled_messages_witness :
  demo_main_loop demo_signer
    [(1, AwaitError); (2, Received (Request "bob.os" "http-server:distro:sys" "x"));
     (3, Received (Request "alice.os" "http-server:distro:sys" "ws")); (4, Received Response)]
    (Some "c")
  = (Some "c", [], None) /\
  demo_main_loop demo_signer
    [(1, AwaitError); (2, Received (Request "bob.os" "http-server:distro:sys" "x"));
     (3, Received (Request "alice.os" "http-server:distro:sys" "ws")); (4, Received Response)]
    (Some "c")
  = main_loop demo_signer demo_login_ok demo_json_parse (fun _ => "{}") (fun s => Some s)
      (fun s => s) (fun _ _ c _ => (Ok tt, [SendResponse (mkResponse 200 [("Cookie", c)] "")]))
      demo_parse_request "alice.os"
      (filter (handled_message demo_parse_request "alice.os")
         [(1, AwaitError); (2, Received (Request "bob.os" "http-server:distro:sys" "x"));
          (3, Received (Request "alice.os" "http-server:distro:sys" "ws"));
          (4, Received Response)])
      (Some "c").
Proof.
  split; [vm_compute; reflexivity|].
  exact (main_loop_ignores_unhandled_messages _ _ _ _ _ _ _ _ _ _ _).
Defined.

Lemma handle_request_with_session :
  forall signer login_post json_parse to_vec from_utf8 base64_encode run_proxy_pkg
         parse_request our_node now proc body c o cookie' effects,
  handle_request signer login_post json_parse to_vec from_utf8 base64_encode run_proxy_pkg
    parse_request our_node now proc body (Some c) = (o, cookie', effects) ->
  cookie' = Some c.
Proof.
  intros until effects. unfold handle_request, handle_page_request.
  destruct (String.eqb proc "http-server:distro:sys"); [|intros H; injection H; auto].
  destruct (parse_request body) as [[req|path ch|ch|ch]|];
    try (intros H; injection H; auto; fail).
  destruct (run_proxy_pkg req WEB2_URL c PACKAGE_PATH). intros H. injection H; auto.
Qed.

Lemma handle_request_with_session_signer :
  forall signer signer' login_post login_post' json_parse to_vec from_utf8 base64_encode
         run_proxy_pkg parse_request our_node now proc body c,
  handle_request signer login_post json_parse to_vec from_utf8 base64_encode run_proxy_pkg
    parse_request our_node now proc body (Some c)
  = handle_request signer' login_post' json_parse to_vec from_utf8 base64_encode run_proxy_pkg
      parse_request our_node now proc body (Some c).
Proof.
  intros. unfold handle_request, handle_page_request. reflexivity.
Qed.

(** X2 (the session is never replaced): once the session holds a cookie,
    [main_loop] keeps that cookie for all later messages and never logs in
    again: its result does not depend on the signer or the login endpoint. *)
Theorem main_loop_session_is_final :
  forall signer signer' login_post login_post' json_parse to_vec from_utf8 base64_encode
         run_proxy_pkg parse_request our_node messages c,
  fst (fst (main_loop signer login_post json_parse to_vec from_utf8 base64_encode run_proxy_pkg
              parse_request our_node messages (Some c))) = Some c /\
  main_loop signer login_post json_parse to_vec from_utf8 base64_encode run_proxy_pkg
    parse_request our_node messages (Some c)
  = main_loop signer' login_post' json_parse to_vec from_utf8 base64_encode run_proxy_pkg
      parse_request our_node messages (Some c).
Proof.
  intros until messages. induction messages as [|[now m] rest IH]; intros c; [split; reflexivity|].
  simpl. destruct m as [[node proc body|]|]; [|apply IH|apply IH].
  destruct (negb (String.eqb node our_node)); [apply IH|].
  rewrite (handle_request_with_session_signer signer signer' login_post login_post').
  destruct (handle_request signer' login_post' _ _ _ _ _ _ our_node now proc body (Some c))
    as [[o c'] e] eqn:Eh.
  apply handle_request_with_session in Eh. subst c'.
  destruct (IH c) as [IH1 IH2].
  destruct o; simpl; try (split; reflexivity);
    rewrite <- IH2;
    destruct (main_loop signer login_post _ _ _ _ _ _ our_node rest (Some c)) as [[c'' e''] st];
    simpl in IH1 |- *; split; [exact IH1 | reflexivity | exact IH1 | reflexivity].
Qed.

(** X3 (no answer while the login fails): as long as every auto-login
    attempt fails, [main_loop] started without a session keeps no session
    and sends nothing: every HTTP request triggers a new login attempt and
    is left without a response. *)
Theorem main_loop_failed_logins_send_nothing :
  forall signer login_post json_parse to_vec from_utf8 base64_encode run_proxy_pkg
         parse_request our_node messages,
  (forall now, exists e,
     auto_login signer login_post json_parse to_vec from_utf8 base64_encode our_node now = Err e) ->
  fst (fst (main_loop signer login_post json_parse to_vec from_utf8 base64_encode run_proxy_pkg
              parse_request our_node messages None)) = None /\
  snd (fst (main_loop signer login_post json_parse to_vec from_utf8 base64_encode run_proxy_pkg
              parse_request our_node messages None)) = [].
Proof.
  intros until messages. intros Hfail.
  induction messages as [|[now m] rest IH]; [split; reflexivity|].
  simpl. destruct m as [[node proc body|]|]; [|exact IH|exact IH].
  destruct (negb (String.eqb node our_node)); [exact IH|].
  unfold handle_request.
  destruct (String.eqb proc "http-server:distro:sys").
  - destruct (parse_request body) as [[req|path ch|ch|ch]|]; simpl;
      try (destruct (main_loop _ _ _ _ _ _ _ _ our_node rest None) as [[c e] st];
           simpl in IH |- *; exact IH);
      [|split; reflexivity].
    unfold handle_page_request. destruct (Hfail now) as [e He]. rewrite He.
    destruct (main_loop _ _ _ _ _ _ _ _ our_node rest None) as [[c e'] st].
    simpl in IH |- *. exact IH.
  - destruct (main_loop _ _ _ _ _ _ _ _ our_node rest None) as [[c e] st].
    simpl in IH |- *. exact IH.
Qed.

Lemma main_loop_failed_logins_send_nothing_witness :
  (forall now, exists e,
     auto_login demo_signer_down demo_login_ok demo_json_parse (fun _ => "{}") (fun s => Some s)
       (fun s => s) "alice.os" now = Err e) /\
  fst (fst (demo_main_loop demo_signer_down
              [(1, Received (Request "alice.os" "http-server:distro:sys" "req"));
               (2, Received (Request "alice.os" "http-server:distro:sys" "req"))] None)) = None /\
  snd (fst (demo_main_loop demo_signer_down
              [(1, Received (Request "alice.os" "http-server:distro:sys" "req"));
               (2, Received (Request "alice.os" "http-server:distro:sys" "req"))] None)) = [].
Proof.
  assert (H : forall now, exists e,
     auto_login demo_signer_down demo_login_ok demo_json_parse (fun _ => "{}") (fun s => Some s)
       (fun s => s) "alice.os" now = Err e) by (intros now; eexists; reflexivity).
  split; [exact H|].
  exact (main_loop_failed_logins_send_nothing _ _ _ _ _ _ _ _ _ _ H).
Defined.



(** X5 (the verification reply is not read): [auto_login] only needs the
    [NetKeyVerify] request to be answered; two signers that agree on the
    other requests and both answer it, with any blobs, give the same
    outcome. *)
Theorem auto_login_ignores_verify_reply :
  forall signer signer' login_post json_parse to_vec from_utf8 base64_encode our_node now,
  (forall r b, (forall n s, r <> NetKeyVerify n s) -> signer r b = signer' r b) ->
  (forall n s b,
     match signer (NetKeyVerify n s) b, signer' (NetKeyVerify n s) b with
     | Replied _, Replied _ => True
     | x, y => x = y
     end) ->
  auto_login signer login_post json_parse to_vec from_utf8 base64_encode our_node now
  = auto_login signer' login_post json_parse to_vec from_utf8 base64_encode our_node now.
Proof.
  intros until now. intros Hother Hverify. unfold auto_login.
  rewrite (Hother NetKeySign) by discriminate.
  rewrite (Hother NetKeyMakeMessage) by discriminate.
  destruct (signer' NetKeySign _) as [| |[sg|]]; try reflexivity.
  specialize (Hverify our_node sg (login_challenge_bytes to_vec now)).
  destruct (signer (NetKeyVerify our_node sg) _) as [| |vb];
    destruct (signer' (NetKeyVerify our_node sg) _) as [| |vb'];
    try discriminate Hverify; reflexivity.
Qed.

Lemma auto_login_ignores_verify_reply_witness :
  auto_login demo_signer demo_login_ok demo_json_parse (fun _ => "{}") (fun s => Some s)
    (fun s => s) "alice.os" 1700
  = auto_login demo_signer_verify_blob demo_login_ok demo_json_parse (fun _ => "{}")
      (fun s => Some s) (fun s => s) "alice.os" 1700.
Proof.
  apply auto_login_ignores_verify_reply.
  - intros [| n s |] b Hr; [reflexivity| |reflexivity].
    exfalso. exact (Hr n s eq_refl).
  - intros n s b. exact I.
Defined.

(** ** URLs and the upstream request *)

Lemma split_on_no_char :
  forall c s, no_char c s = true -> split_on c s = [s].
Proof.
  intros c. induction s as [|a s IH]; intros H; [reflexivity|].
  simpl in H |- *. apply andb_prop in H as [Ha H]. apply negb_true_iff in Ha.
  rewrite Ha, IH by exact H. reflexivity.
Qed.

Lemma split_on_app :
  forall c seg rest, no_char c seg = true ->
  split_on c (seg ++ String c rest) = seg :: split_on c rest.
Proof.
  intros c. induction seg as [|a seg IH]; intros rest H; simpl in H |- *.
  - rewrite Ascii.eqb_refl. reflexivity.
  - apply andb_prop in H as [Ha H]. apply negb_true_iff in Ha. rewrite Ha, IH by exact H.
    reflexivity.
Qed.

Lemma split_on_not_nil : forall c s, split_on c s <> [].
Proof.
  intros c [|a s]; simpl; [discriminate|].
  destruct (Ascii.eqb a c); [discriminate|]. destruct (split_on c s); discriminate.
Qed.

(** Joining the pieces of [split_on] with the separator gives the text
    back. *)
Lemma concat_split_on :
  forall c s, String.concat (String c EmptyString) (split_on c s) = s.
Proof.
  intros c. induction s as [|a s IH]; [reflexivity|]. simpl.
  destruct (Ascii.eqb a c) eqn:E.
  - apply Ascii.eqb_eq in E. subst a.
    destruct (split_on c s) as [|x xs] eqn:Es; [exfalso; exact (split_on_not_nil c s Es)|].
    simpl. rewrite <- IH. reflexivity.
  - destruct (split_on c s) as [|x xs] eqn:Es; [exfalso; exact (split_on_not_nil c s Es)|].
    simpl in IH |- *. destruct xs; rewrite <- IH; reflexivity.
Qed.

(** X6 (the mount segment is cut off): for a URL whose path is
    [/{seg}/{rest}] with [seg] free of slashes, [split_first_path_segment]
    returns [seg] and the URL with path [/{rest}], keeping scheme, host,
    query and fragment; a path [/{seg}] becomes [/]. *)
Theorem split_first_path_segment_cuts_mount :
  forall u seg,
  no_char "/"%char seg = true ->
  (forall rest, path u = "/" ++ seg ++ "/" ++ rest ->
   split_first_path_segment u
   = (seg, mkUrl (scheme u) (host u) ("/" ++ rest) (query u) (fragment u))) /\
  (path u = "/" ++ seg ->
   split_first_path_segment u = (seg, mkUrl (scheme u) (host u) "/" (query u) (fragment u))).
Proof.
  intros u seg Hs. split.
  - intros rest Hp. unfold split_first_path_segment, path_segments. rewrite Hp.
    rewrite strip_prefix_app.
    change ("/" ++ rest) with (String "/" rest). rewrite split_on_app by exact Hs.
    simpl tl.
    destruct (split_on "/"%char rest) as [|x xs] eqn:Es;
      [exfalso; exact (split_on_not_nil _ _ Es)|].
    rewrite <- Es. unfold set_path. change (String.concat "/" (split_on "/"%char rest))
      with (String.concat (String "/" EmptyString) (split_on "/"%char rest)).
    rewrite concat_split_on. reflexivity.
  - intros Hp. unfold split_first_path_segment, path_segments. rewrite Hp.
    rewrite strip_prefix_app, split_on_no_char by exact Hs. reflexivity.
Qed.

Lemma split_first_path_segment_cuts_mount_witness :
  no_char "/"%char "memedeck:memedeck:memedeck-tester.os" = true /\
  split_first_path_segment
    (mkUrl "https" "node.os" "/memedeck:memedeck:memedeck-tester.os/static/main.css"
       (Some "v=1") None)
  = ("memedeck:memedeck:memedeck-tester.os",
     mkUrl "https" "node.os" "/static/main.css" (Some "v=1") None).
Proof.
  split; [reflexivity|].
  exact (proj1 (split_first_path_segment_cuts_mount
                  (mkUrl "https" "node.os" "/memedeck:memedeck:memedeck-tester.os/static/main.css"
                     (Some "v=1") None)
                  "memedeck:memedeck:memedeck-tester.os" eq_refl) "static/main.css" eq_refl).
Defined.

Lemma run_proxy_upstream_inv :
  forall Url_parse html_parse html_render from_utf8_lossy upstream blob request
         web2_url cookie out,
  In (UpstreamRequest out)
     (snd (run_proxy Url_parse html_parse html_render from_utf8_lossy upstream
             blob request web2_url cookie)) ->
  exists body u base method,
    blob = Some body /\ req_url request = Some u /\
    Url_parse (web2_url ++ "/memedeck:memedeck:memedeck-tester.os") = Some base /\
    req_method request = Some method /\
    out = mkOutgoing method (snd (split_first_path_segment (set_path base (path u))))
            [("Cookie", cookie)] 6000 body.
Proof.
  intros until out. intros H. unfold run_proxy, replace_domain in H.
  destruct blob as [body|]; [|simpl in H; contradiction].
  destruct (req_url request) as [u|] eqn:Eu; [|simpl in H; contradiction].
  destruct (Url_parse (web2_url ++ "/memedeck:memedeck:memedeck-tester.os")) as [base|] eqn:Eb;
    [|simpl in H; contradiction].
  destruct (split_first_path_segment (set_path base (path u))) as [fps url] eqn:Es.
  destruct (req_method request) as [method|] eqn:Em; [|simpl in H; contradiction].
  assert (Hout : out = mkOutgoing method url [("Cookie", cookie)] 6000 body).
  { destruct (upstream (mkOutgoing method url (hashmap_insert "Cookie" cookie []) 6000 body))
      as [resp|]; [|in_effects H; injection H as <-; reflexivity].
    destruct (header_value_valid cookie); [|in_effects H; injection H as <-; reflexivity].
    simpl negb in H. cbv iota in H.
    destruct (match header_get "content-type" (header_insert "set-cookie" cookie (up_headers resp))
              with
              | Some ct => if header_value_visible ct then Ok ct else Err "to_str"
              | None => Ok "text/html"
              end) as [ct|e|m];
      [|in_effects H; injection H as <-; reflexivity|in_effects H; injection H as <-; reflexivity].
    destruct (rewrite_body html_parse html_render from_utf8_lossy (strip_mime_params ct)
                (up_body resp) fps) as [b|e|m];
      in_effects H; injection H as <-; reflexivity. }
  exists body, u, base, method. rewrite Es. repeat split; assumption.
Qed.

(** X7 (where the proxy sends a request): the upstream request of
    [run_proxy] for an inbound request with path [/{seg}/{rest}] carries the
    inbound method and body, the single header [Cookie] with the session
    cookie and a 6000 ms timeout, and goes to scheme, host, query and
    fragment of the parsed [web2_url/memedeck:memedeck:memedeck-tester.os]
    with path [/{rest}]: the path of that base URL is discarded with the
    first segment of the inbound path. *)
Theorem run_proxy_upstream_request :
  forall Url_parse html_parse html_render from_utf8_lossy upstream blob request
         web2_url cookie u seg rest out,
  req_url request = Some u -> path u = "/" ++ seg ++ "/" ++ rest -> no_char "/"%char seg = true ->
  In (UpstreamRequest out)
     (snd (run_proxy Url_parse html_parse html_render from_utf8_lossy upstream
             blob request web2_url cookie)) ->
  exists base method body,
    Url_parse (web2_url ++ "/memedeck:memedeck:memedeck-tester.os") = Some base /\
    req_method request = Some method /\ blob = Some body /\
    out = mkOutgoing method (mkUrl (scheme base) (host base) ("/" ++ rest) (query base) (fragment base))
            [("Cookie", cookie)] 6000 body.
Proof.
  intros until out. intros Hu Hp Hs H.
  destruct (run_proxy_upstream_inv _ _ _ _ _ _ _ _ _ _ H)
    as (body & u' & base & method & Eb & Eu & Ebase & Em & ->).
  rewrite Hu in Eu. injection Eu as <-.
  exists base, method, body. repeat split; try assumption.
  destruct (split_first_path_segment_cuts_mount (set_path base (path u)) seg Hs) as [Hcut _].
  rewrite (Hcut rest) by (unfold set_path; simpl; rewrite Hp; reflexivity).
  reflexivity.
Qed.

Lemma run_proxy_upstream_request_witness :
  In (UpstreamRequest
        (mkOutgoing "GET" (mkUrl "https" "hyperware.memedeck.xyz" "/main.css" None None)
           [("Cookie", "session=abc123")] 6000 ""))
     (snd (demo_run_proxy demo_upstream demo_request)) /\
  exists base method body,
    demo_url_parse (WEB2_URL ++ "/memedeck:memedeck:memedeck-tester.os") = Some base /\
    req_method demo_request = Some method /\ Some EmptyString = Some body /\
    mkOutgoing "GET" (mkUrl "https" "hyperware.memedeck.xyz" "/main.css" None None)
      [("Cookie", "session=abc123")] 6000 ""
    = mkOutgoing method (mkUrl (scheme base) (host base) ("/" ++ "main.css") (query base)
                           (fragment base))
        [("Cookie", "session=abc123")] 6000 body.
Proof.
  assert (H : In (UpstreamRequest
        (mkOutgoing "GET" (mkUrl "https" "hyperware.memedeck.xyz" "/main.css" None None)
           [("Cookie", "session=abc123")] 6000 ""))
     (snd (demo_run_proxy demo_upstream demo_request))) by (vm_compute; left; reflexivity).
  split; [exact H|].
  exact (run_proxy_upstream_request demo_url_parse demo_html_parse demo_html_render (fun s => s)
           demo_upstream (Some EmptyString) demo_request WEB2_URL "session=abc123"
           (mkUrl "https" "node.os" "/memedeck:memedeck:memedeck-tester.os/main.css" (Some "v=1") None)
           "memedeck:memedeck:memedeck-tester.os" "main.css" _ eq_refl eq_refl eq_refl H).
Defined.

(** X8 (one response, and only on success): [run_proxy] sends at most one
    upstream request and at most one response, the response after the
    request; it sends the response exactly when it returns [Ok]: when
    the upstream is unreachable, the cookie is no valid header value, the
    content type is not visible ASCII or the HTML rewriter fails, the
    client gets no response. *)
Theorem run_proxy_responds_only_on_success :
  forall Url_parse html_parse html_render from_utf8_lossy upstream blob request web2_url cookie,
  (fst (run_proxy Url_parse html_parse html_render from_utf8_lossy upstream
          blob request web2_url cookie) = Ok tt /\
   exists out r,
     snd (run_proxy Url_parse html_parse html_render from_utf8_lossy upstream
            blob request web2_url cookie) = [UpstreamRequest out; SendResponse r]) \/
  (fst (run_proxy Url_parse html_parse html_render from_utf8_lossy upstream
          blob request web2_url cookie) <> Ok tt /\
   (snd (run_proxy Url_parse html_parse html_render from_utf8_lossy upstream
           blob request web2_url cookie) = [] \/
    exists out,
      snd (run_proxy Url_parse html_parse html_render from_utf8_lossy upstream
             blob request web2_url cookie) = [UpstreamRequest out])).
Proof.
  intros. unfold run_proxy.
  repeat match goal with
         | |- context [match ?x with _ => _ end] => destruct x
         end;
    cbn [fst snd];
    first [ left; split; [reflexivity | eexists _, _; reflexivity]
          | right; split; [discriminate | first [left; reflexivity | right; eexists; reflexivity]] ].
Qed.

(** ** Prefix normalisation, script text and unchanged text *)

Lemma trim_start_slashes_cons :
  forall c t, trim_start_slashes (String c t)
              = if Ascii.eqb c "/" then trim_start_slashes t else String c t.
Proof. intros [[] [] [] [] [] [] [] []] t; reflexivity. Qed.

Lemma trim_start_slashes_no_slash : forall s, prefix_of "/" (trim_start_slashes s) = false.
Proof.
  induction s as [|c t IH]; [reflexivity|]. rewrite trim_start_slashes_cons.
  destruct (Ascii.eqb c "/") eqn:E; [exact IH|].
  cbn [prefix_of]. rewrite Ascii.eqb_sym, E. reflexivity.
Qed.

Lemma trim_start_slashes_id : forall s, prefix_of "/" s = false -> trim_start_slashes s = s.
Proof.
  intros [|c t] H; [reflexivity|]. rewrite trim_start_slashes_cons.
  cbn [prefix_of] in H. rewrite Ascii.eqb_sym in H.
  destruct (Ascii.eqb c "/"); [discriminate|reflexivity].
Qed.

Lemma trim_end_slashes_cons :
  forall c t, trim_end_slashes (String c t)
              = match trim_end_slashes t with
                | EmptyString => if Ascii.eqb c "/" then EmptyString else String c EmptyString
                | t' => String c t'
                end.
Proof. reflexivity. Qed.

Lemma trim_end_slashes_head :
  forall s, prefix_of "/" s = false -> prefix_of "/" (trim_end_slashes s) = false.
Proof.
  intros [|c t] H; [reflexivity|]. rewrite trim_end_slashes_cons. cbn [prefix_of] in H.
  destruct (trim_end_slashes t); [destruct (Ascii.eqb c "/")|]; cbn [prefix_of];
    first [reflexivity | exact H].
Qed.

Lemma trim_end_slashes_idem : forall s, trim_end_slashes (trim_end_slashes s) = trim_end_slashes s.
Proof.
  induction s as [|c t IH]; [reflexivity|]. rewrite trim_end_slashes_cons.
  destruct (trim_end_slashes t) as [|d r] eqn:E.
  - destruct (Ascii.eqb c "/") eqn:Ec; [reflexivity|].
    rewrite trim_end_slashes_cons. simpl. rewrite Ec. reflexivity.
  - rewrite trim_end_slashes_cons, IH. reflexivity.
Qed.

Lemma trim_end_slashes_no_trailing :
  forall s s', trim_end_slashes s <> s' ++ "/".
Proof.
  induction s as [|c t IH]; intros s' H.
  - destruct s'; discriminate.
  - rewrite trim_end_slashes_cons in H. destruct (trim_end_slashes t) as [|d r] eqn:E.
    + destruct (Ascii.eqb c "/") eqn:Ec.
      * destruct s'; discriminate.
      * destruct s' as [|x s''].
        -- injection H as ->. rewrite Ascii.eqb_refl in Ec. discriminate.
        -- injection H as _ H. destruct s''; discriminate.
    + destruct s' as [|x s''].
      * injection H as _ H. discriminate.
      * injection H as _ H. exact (IH s'' H).
Qed.

Lemma trim_matches_slash_idem :
  forall p, trim_matches_slash (trim_matches_slash p) = trim_matches_slash p.
Proof.
  intros p. unfold trim_matches_slash.
  rewrite (trim_start_slashes_id (trim_end_slashes (trim_start_slashes p)))
    by (apply trim_end_slashes_head, trim_start_slashes_no_slash).
  apply trim_end_slashes_idem.
Qed.

(** X9 (prefix slashes do not matter): [modify_html] trims the prefix, so
    it gives the same document for a prefix and for its trimmed form, and
    the prefix it writes neither starts nor ends with a slash. *)
Theorem modify_html_trims_prefix :
  forall doc prefix,
  modify_html doc (trim_matches_slash prefix) = modify_html doc prefix /\
  prefix_of "/" (trim_matches_slash prefix) = false /\
  (forall s, trim_matches_slash prefix <> s ++ "/").
Proof.
  intros doc prefix. split; [|split].
  - unfold modify_html at 1. rewrite trim_matches_slash_idem. reflexivity.
  - unfold trim_matches_slash.
    apply trim_end_slashes_head, trim_start_slashes_no_slash.
  - intros s. apply trim_end_slashes_no_trailing.
Qed.

Lemma escape_text_cons :
  forall c t, escape_text (String c t)
              = if Ascii.eqb c "&" then "&amp;" ++ escape_text t
                else if Ascii.eqb c "<" then "&lt;" ++ escape_text t
                else if Ascii.eqb c ">" then "&gt;" ++ escape_text t
                else String c (escape_text t).
Proof. intros [[] [] [] [] [] [] [] []] t; reflexivity. Qed.

Lemma escape_text_length : forall t, String.length t <= String.length (escape_text t).
Proof.
  induction t as [|c t IH]; [reflexivity|]. rewrite escape_text_cons.
  destruct (Ascii.eqb c "&"); [simpl; lia|].
  destruct (Ascii.eqb c "<"); [simpl; lia|].
  destruct (Ascii.eqb c ">"); simpl; lia.
Qed.

Lemma escape_text_id_iff :
  forall t, escape_text t = t <->
            (no_char "&"%char t && no_char "<"%char t && no_char ">"%char t) = true.
Proof.
  induction t as [|c t IH]; [split; reflexivity|]. rewrite escape_text_cons. simpl no_char.
  destruct (Ascii.eqb c "&") eqn:E1.
  - split; [|simpl; discriminate]. intros H. injection H as H1 H2.
    pose proof (escape_text_length t). apply (f_equal String.length) in H2. simpl in H2. lia.
  - destruct (Ascii.eqb c "<") eqn:E2.
    + split; [|rewrite andb_false_r; simpl; discriminate]. intros H. injection H as H1 H2.
      pose proof (escape_text_length t). apply (f_equal String.length) in H2. simpl in H2. lia.
    + destruct (Ascii.eqb c ">") eqn:E3.
      * split; [|rewrite !andb_false_r; simpl; discriminate]. intros H. injection H as H1 H2.
        pose proof (escape_text_length t). apply (f_equal String.length) in H2. simpl in H2. lia.
      * simpl. split.
        -- intros H. injection H as H. apply IH, H.
        -- intros H. f_equal. apply IH, H.
Qed.

(** [Regex::replace_all] leaves a text unchanged when the pattern needs a
    prefix that the text does not contain. *)
Lemma replace_all_absent :
  forall find_at replacer pat,
  (forall s, prefix_of pat s = false -> find_at s = None) ->
  forall s, contains pat s = false -> replace_all find_at replacer s = s.
Proof.
  intros find_at replacer pat Hf. induction s as [|c t IH]; intros H; [reflexivity|].
  simpl in H. apply orb_false_iff in H as [Hp Ht].
  rewrite replace_all_nomatch by (apply Hf, Hp). rewrite IH by exact Ht. reflexivity.
Qed.

Lemma files_find_at_absent :
  forall s, prefix_of (bs_dq ++ "/") s = false -> files_find_at s = None.
Proof. intros s H. unfold files_find_at. rewrite strip_prefix_prefix_of by exact H. reflexivity. Qed.

Lemma css_find_at_absent :
  forall s, prefix_of "url(/" s = false -> css_find_at s = None.
Proof. intros s H. unfold css_find_at. rewrite strip_prefix_prefix_of by exact H. reflexivity. Qed.

(** X10 (inline script text is escaped): text inside a [script] element
    without an escaped quote followed by a slash comes out as
    [escape_text] of itself, which equals the text exactly when it holds
    none of [&], [<], [>]; text under any other element is kept. *)
Theorem modify_node_script_text :
  forall prefix t,
  contains (bs_dq ++ "/") t = false ->
  modify_node prefix "script" (Text t) = Raw (escape_text t) /\
  (escape_text t = t <->
   (no_char "&"%char t && no_char "<"%char t && no_char ">"%char t) = true) /\
  (forall parent, parent <> "script" -> modify_node prefix parent (Text t) = Text t).
Proof.
  intros prefix t H. split; [|split].
  - simpl. unfold replace_files. rewrite (replace_all_absent _ _ _ files_find_at_absent t H).
    reflexivity.
  - apply escape_text_id_iff.
  - intros parent Hp. simpl. apply String.eqb_neq in Hp. rewrite Hp. reflexivity.
Qed.

Lemma modify_node_script_text_witness :
  contains (bs_dq ++ "/") "if (a && b) { x = 1; }" = false /\
  modify_node "p" "script" (Text "if (a && b) { x = 1; }")
  = Raw "if (a &amp;&amp; b) { x = 1; }".
Proof.
  assert (H : contains (bs_dq ++ "/") "if (a && b) { x = 1; }" = false) by reflexivity.
  split; [exact H|].
  rewrite (proj1 (modify_node_script_text "p" _ H)). reflexivity.
Defined.

(** X11 (text without a match is kept): each text rewriter returns its
    input unchanged when the input has no occurrence of the literal its
    pattern starts with: [url(/] for [replace_urls_css], [_next/] for
    [replace_urls_js], an escaped quote and a slash for [replace_files]. *)
Theorem rewriters_keep_text_without_match :
  forall s output,
  (contains "url(/" s = false -> replace_urls_css s output = s) /\
  (contains "_next/" s = false -> replace_urls_js s output = s) /\
  (contains (bs_dq ++ "/") s = false -> replace_files s output = s).
Proof.
  intros s output. split; [|split]; intros H.
  - apply (replace_all_absent _ _ _ css_find_at_absent s H).
  - apply (replace_all_absent _ _ _ js_find_at_other s H).
  - apply (replace_all_absent _ _ _ files_find_at_absent s H).
Qed.

Lemma rewriters_keep_text_without_match_witness :
  contains "url(/" "body{background:url(https://x/y.png)}" = false /\
  replace_urls_css "body{background:url(https://x/y.png)}" "p"
  = "body{background:url(https://x/y.png)}".
Proof.
  assert (H : contains "url(/" "body{background:url(https://x/y.png)}" = false) by reflexivity.
  split; [exact H|].
  exact (proj1 (rewriters_keep_text_without_match "body{background:url(https://x/y.png)}" "p") H).
Defined.

(** X12 (failures after the upstream request): when the upstream cannot be
    reached, or the session cookie is no valid header value, [run_proxy]
    fails with no response to the client; the upstream request, cookie
    included, has been sent in the second case all the same. *)
Theorem run_proxy_upstream_or_cookie_failure :
  forall Url_parse html_parse html_render from_utf8_lossy upstream blob request web2_url cookie,
  (forall out, upstream out = None) \/ header_value_valid cookie = false ->
  fst (run_proxy Url_parse html_parse html_render from_utf8_lossy upstream
         blob request web2_url cookie) <> Ok tt /\
  (forall r, ~ In (SendResponse r)
                 (snd (run_proxy Url_parse html_parse html_render from_utf8_lossy upstream
                         blob request web2_url cookie))).
Proof.
  intros until cookie. intros Hfail. unfold run_proxy, replace_domain.
  destruct blob as [body|]; [|split; [discriminate|intros r []]].
  destruct (req_url request) as [u|]; [|split; [discriminate|intros r []]].
  destruct (Url_parse _) as [base|]; [|split; [discriminate|intros r []]].
  destruct (split_first_path_segment (set_path base (path u))) as [fps url].
  destruct (req_method request) as [method|]; [|split; [discriminate|intros r []]].
  destruct (upstream _) as [resp|] eqn:Eu;
    [|split; [discriminate|intros r H; in_effects H]].
  destruct Hfail as [Hn|Hv]; [rewrite Hn in Eu; discriminate|].
  rewrite Hv. split; [discriminate|intros r H; in_effects H].
Qed.

Lemma run_proxy_upstream_or_cookie_failure_witness :
  ((forall out : OutgoingRequest, (fun _ => None : option UpstreamResponse) out = None) \/
   header_value_valid "session=abc123" = false) /\
  fst (demo_run_proxy (fun _ => None) demo_request) <> Ok tt /\
  (forall r, ~ In (SendResponse r) (snd (demo_run_proxy (fun _ => None) demo_request))).
Proof.
  assert (H : (forall out : OutgoingRequest, (fun _ => None : option UpstreamResponse) out = None) \/
              header_value_valid "session=abc123" = false) by (left; reflexivity).
  split; [exact H|].
  exact (run_proxy_upstream_or_cookie_failure demo_url_parse demo_html_parse demo_html_render
           (fun s => s) (fun _ => None) (Some EmptyString) demo_request WEB2_URL "session=abc123" H).
Defined.

